(** * AirWise: the spatial estimator and the refresh scheduler of the AQI map

    A shallow embedding of the computational core of
    [src/components/dashboard/AQIMap.tsx] (the inverse-distance-weighting
    estimator [estimateAQI], the AQI classification helpers and the
    auto-refresh loop built from React state, one interval timer and the
    asynchronous [getMapData]), together with the two sibling classifiers
    of [AQIGauge.tsx] and [pages/Alerts.tsx].

    The TypeScript [number] type is kept abstract behind the class
    [JsNumber]; the functions of the source are translated once, over any
    instance.  [Binary64.number] is the arithmetic of the program: IEEE
    754 binary64, as a JavaScript engine computes.  [Exact.number] is the
    arithmetic of the specification's formulas: the rationals, with no
    rounding error and a quotient only for a non-zero divisor.  The two
    take the same branch in every comparison of a value with an integer
    literal, but they need not agree on the last digit of a computed sum
    or quotient, and so on the integer [Math.round] makes of it; what is
    proved over [Exact.number] alone is a statement about the formulas
    and is said to be one. *)

From Stdlib Require Import ZArith QArith Qabs Qround Qfield.
From Stdlib Require Import List String Bool Lia Psatz.
From Stdlib Require Import Floats Uint63.
From Stdlib Require Import Ascii DecimalString Permutation.
Import ListNotations.

(** ** The error monad used for partial arithmetic *)

Definition bind {A B : Type} (m : option A) (f : A -> option B) : option B :=
  match m with
  | Some a => f a
  | None => None
  end.

Declare Scope js_scope.
Delimit Scope js_scope with js.

Notation "x <- m ;; k" := (bind m (fun x => k))
  (at level 61, m at next level, right associativity) : js_scope.

(** ** JavaScript numbers *)

(** The operations on [number] that the modelled functions use.  [lit m k]
    is the decimal literal m·10^-k ([lit 5 3] is [0.005], [lit 300 0] is
    [300]).  [div] is [/]; an instance answers [None] where it has no value
    for the quotient: the exact instance for a zero divisor (the rationals
    have no Infinity and no NaN), the binary64 instance never.
    [Math_pow_2 x] is [Math.pow(x, 2)], [eqb] is [===] on numbers. *)
Class JsNumber (num : Type) : Type := {
  lit : Z -> nat -> num;
  add : num -> num -> num;
  sub : num -> num -> num;
  mul : num -> num -> num;
  div : num -> num -> option num;
  Math_abs : num -> num;
  Math_pow_2 : num -> num;
  Math_round : num -> num;
  ltb : num -> num -> bool;
  leb : num -> num -> bool;
  eqb : num -> num -> bool
}.

#[global] Hint Mode JsNumber ! : typeclass_instances.

(** The further functions of [Math] used by the views. *)
Class JsMath (num : Type) : Type := {
  Math_max : num -> num -> num;
  Math_min : num -> num -> num;
  Math_floor : num -> num
}.

#[global] Hint Mode JsMath ! : typeclass_instances.

Notation "x + y" := (add x y) : js_scope.
Notation "x - y" := (sub x y) : js_scope.
Notation "x * y" := (mul x y) : js_scope.
Notation "x / y" := (div x y) : js_scope.
Notation "x <? y" := (ltb x y) : js_scope.
Notation "x <=? y" := (leb x y) : js_scope.
Notation "x === y" := (eqb x y) (at level 70, no associativity) : js_scope.

(** *** Exact arithmetic *)

Module Exact.

Definition of_lit (m : Z) (k : nat) : Q :=
  Qmake m (Z.to_pos (10 ^ Z.of_nat k)).

Definition quotient (x y : Q) : option Q :=
  if Qeq_bool y 0 then None else Some (Qdiv x y).

(** [Math.round]: the nearest integer, a tie going up. *)
Definition round (x : Q) : Q :=
  inject_Z (Qfloor (Qplus x (1 # 2))).

(** Arithmetic without rounding.  It is not what the engine evaluates:
    sums, products and quotients are exact here and rounded to 53 bits
    there, so [Math_round] of a quotient can differ by one between the
    two instances (see [estimateAQI_exact_and_binary64_differ] below). *)
#[global] Instance number : JsNumber Q := {|
  lit := of_lit;
  add := Qplus;
  sub := Qminus;
  mul := Qmult;
  div := quotient;
  Math_abs := Qabs;
  Math_pow_2 := fun x => Qmult x x;
  Math_round := round;
  ltb := fun x y => negb (Qle_bool y x);
  leb := Qle_bool;
  eqb := Qeq_bool
|}.

#[global] Instance math : JsMath Q := {|
  Math_max := fun x y => if Qle_bool x y then y else x;
  Math_min := fun x y => if Qle_bool x y then x else y;
  Math_floor := fun x => inject_Z (Qfloor x)
|}.

End Exact.

(** *** IEEE 754 binary64 *)

Module Binary64.

(** An integer below 2^63 in magnitude, converted as the engine converts
    an integer literal (exact below 2^53). *)
Definition of_Z (z : Z) : float :=
  if (z <? 0)%Z
  then PrimFloat.opp (PrimFloat.of_uint63 (Uint63.of_Z (- z)))
  else PrimFloat.of_uint63 (Uint63.of_Z z).

(** A decimal literal with mantissa below 2^53 and at most 22 decimals is
    the correctly rounded quotient of two exactly represented integers. *)
Definition of_lit (m : Z) (k : nat) : float :=
  PrimFloat.div (of_Z m) (of_Z (10 ^ Z.of_nat k)).

(** [Math.round]: NaN, the infinities, the zeros and integral values are
    returned unchanged; otherwise floor(x + 1/2) computed exactly, with
    the sign of [x] kept on a zero result. *)
Definition round (x : float) : float :=
  match Prim2SF x with
  | S754_finite s m e =>
      if (0 <=? e)%Z then x
      else
        let n := (((if s then Z.neg m else Z.pos m) * 2 + 2 ^ (- e))
                    / 2 ^ (1 - e))%Z in
        if (n =? 0)%Z then (if s then PrimFloat.opp PrimFloat.zero
                            else PrimFloat.zero)
        else of_Z n
  | _ => x
  end.

#[global] Instance number : JsNumber float := {|
  lit := of_lit;
  add := PrimFloat.add;
  sub := PrimFloat.sub;
  mul := PrimFloat.mul;
  div := fun x y => Some (PrimFloat.div x y);
  Math_abs := PrimFloat.abs;
  Math_pow_2 := fun x => PrimFloat.mul x x;
  Math_round := round;
  ltb := PrimFloat.ltb;
  leb := PrimFloat.leb;
  eqb := PrimFloat.eqb
|}.

(** [Math.floor]: unchanged on NaN, the infinities, the zeros and integral
    values; otherwise the floor computed exactly (+0 between 0 and 1). *)
Definition floor (x : float) : float :=
  match Prim2SF x with
  | S754_finite s m e =>
      if (0 <=? e)%Z then x
      else
        let n := ((if s then Z.neg m else Z.pos m) / 2 ^ (- e))%Z in
        if (n =? 0)%Z then PrimFloat.zero else of_Z n
  | _ => x
  end.

(** [Math.max] and [Math.min]: NaN if an argument is NaN; of the two
    zeros, +0 is the larger. *)
Definition max (x y : float) : float :=
  if PrimFloat.is_nan x || PrimFloat.is_nan y then PrimFloat.nan
  else if PrimFloat.ltb x y then y
  else if PrimFloat.ltb y x then x
  else if PrimFloat.get_sign x then y else x.

Definition min (x y : float) : float :=
  if PrimFloat.is_nan x || PrimFloat.is_nan y then PrimFloat.nan
  else if PrimFloat.ltb x y then x
  else if PrimFloat.ltb y x then y
  else if PrimFloat.get_sign x then x else y.

#[global] Instance math : JsMath float := {|
  Math_max := max;
  Math_min := min;
  Math_floor := floor
|}.

End Binary64.

(** ** Integers and strings *)

(** [String(n)], and [n] inside a template literal, for an integer [n]. *)
Definition Number_toString (n : Z) : string :=
  NilZero.string_of_int (Z.to_int n).

(** [Math.round(a / b)] for integers [a] and [b], [b] not 0, the quotient
    being taken exactly. *)
Definition Math_round_quotient (a b : Z) : Z :=
  Qfloor (Qplus (Qdiv (inject_Z a) (inject_Z b)) (1 # 2)).

(** [s.replace(pattern, replacement)] for a string [pattern]: the first
    occurrence is replaced. *)
Fixpoint String_replace (pattern replacement s : string) : string :=
  if String.prefix pattern s
  then replacement
         ++ substring (String.length pattern)
              (String.length s - String.length pattern) s
  else
    match s with
    | EmptyString => EmptyString
    | String c rest => String c (String_replace pattern replacement rest)
    end.

(** ** AQIMap.tsx *)

Module AQIMap.

Section Component.

Context {num : Type} {N : JsNumber num}.
Local Open Scope js_scope.

(** [interface Location] *)
Record Location : Type := mkLocation {
  location : string;
  coordinates : num * num;
  aqi : num;
  pm25 : option num
}.

Definition getAQIColor (aqi : num) : string :=
  if aqi <=? lit 50 0 then "#10B981"%string
  else if aqi <=? lit 100 0 then "#F59E0B"%string
  else if aqi <=? lit 150 0 then "#F97316"%string
  else if aqi <=? lit 200 0 then "#EF4444"%string
  else if aqi <=? lit 300 0 then "#8B5CF6"%string
  else "#991B1B"%string.

Definition getAQICategory (aqi : num) : string :=
  if aqi <=? lit 50 0 then "Good"%string
  else if aqi <=? lit 100 0 then "Moderate"%string
  else if aqi <=? lit 150 0 then "Unhealthy for Sensitive Groups"%string
  else if aqi <=? lit 200 0 then "Unhealthy"%string
  else if aqi <=? lit 300 0 then "Very Unhealthy"%string
  else "Hazardous"%string.

(** *** estimateAQI *)

(** The predicate handed to [locations.find]. *)
Definition nearby (lat lng : num) (loc : Location) : bool :=
  let '(locLat, locLng) := coordinates loc in
  (Math_abs (lat - locLat) <? lit 5 3)
  && (Math_abs (lng - locLng) <? lit 5 3).

(** The body of the [locations.forEach] callback, acting on the two
    accumulators [weightSum] and [aqiSum]. *)
Definition accumulate (lat lng : num) (acc : num * num) (loc : Location)
  : option (num * num) :=
  let '(weightSum, aqiSum) := acc in
  let '(locLat, locLng) := coordinates loc in
  let distSquared := Math_pow_2 (lat - locLat) + Math_pow_2 (lng - locLng) in
  weight <- (if distSquared === lit 0 0 then Some (lit 1 0)
             else lit 1 0 / distSquared) ;;
  Some (weightSum + weight, aqiSum + aqi loc * weight).

Fixpoint forEach (lat lng : num) (locations : list Location)
  (acc : num * num) : option (num * num) :=
  match locations with
  | [] => Some acc
  | loc :: rest =>
      acc' <- accumulate lat lng acc loc ;;
      forEach lat lng rest acc'
  end.

Definition estimateAQI (locations : list Location) (lat lng : num)
  : option num :=
  if (List.length locations =? 0)%nat then Some (lit 0 0)
  else
    match find (nearby lat lng) locations with
    | Some nearbyLocation => Some (aqi nearbyLocation)
    | None =>
        sums <- forEach lat lng locations (lit 0 0, lit 0 0) ;;
        let '(weightSum, aqiSum) := sums in
        q <- aqiSum / weightSum ;;
        Some (Math_round q)
    end.

(** *** The refresh loop *)

(** The list substituted in the [catch] branch of [getMapData]. *)
Definition fallback : list Location :=
  [ mkLocation "Sector 56" (lit 284089 4, lit 770926 4) (lit 175 0) None;
    mkLocation "DLF Cyber City" (lit 284595 4, lit 770266 4) (lit 160 0) None;
    mkLocation "Golf Course Road" (lit 284321 4, lit 771025 4) (lit 155 0) None;
    mkLocation "MG Road" (lit 284773 4, lit 770497 4) (lit 168 0) None ].

(** The component's state ([useState] cells), the interval handle held
    by the auto-refresh effect, and the number of requests issued by
    [fetchGeospatialData] that have not settled yet.  [clickedLocation]
    and the two refs take no part in refreshing and are left out. *)
Record state : Type := mkState {
  locations : list Location;
  loading : bool;
  error : option string;
  lastUpdated : string;
  isRefreshing : bool;
  autoRefreshEnabled : bool;
  countdown : Z;
  countdownTimer : bool;
  inFlight : nat
}.

Definition setLocations (v : list Location) (s : state) : state :=
  mkState v (loading s) (error s) (lastUpdated s) (isRefreshing s)
    (autoRefreshEnabled s) (countdown s) (countdownTimer s) (inFlight s).

Definition setLoading (v : bool) (s : state) : state :=
  mkState (locations s) v (error s) (lastUpdated s) (isRefreshing s)
    (autoRefreshEnabled s) (countdown s) (countdownTimer s) (inFlight s).

Definition setError (v : option string) (s : state) : state :=
  mkState (locations s) (loading s) v (lastUpdated s) (isRefreshing s)
    (autoRefreshEnabled s) (countdown s) (countdownTimer s) (inFlight s).

Definition setLastUpdated (v : string) (s : state) : state :=
  mkState (locations s) (loading s) (error s) v (isRefreshing s)
    (autoRefreshEnabled s) (countdown s) (countdownTimer s) (inFlight s).

Definition setIsRefreshing (v : bool) (s : state) : state :=
  mkState (locations s) (loading s) (error s) (lastUpdated s) v
    (autoRefreshEnabled s) (countdown s) (countdownTimer s) (inFlight s).

Definition setAutoRefreshEnabled (v : bool) (s : state) : state :=
  mkState (locations s) (loading s) (error s) (lastUpdated s)
    (isRefreshing s) v (countdown s) (countdownTimer s) (inFlight s).

Definition setCountdown (v : Z) (s : state) : state :=
  mkState (locations s) (loading s) (error s) (lastUpdated s)
    (isRefreshing s) (autoRefreshEnabled s) v (countdownTimer s)
    (inFlight s).

Definition setCountdownTimer (v : bool) (s : state) : state :=
  mkState (locations s) (loading s) (error s) (lastUpdated s)
    (isRefreshing s) (autoRefreshEnabled s) (countdown s) v (inFlight s).

Definition setInFlight (v : nat) (s : state) : state :=
  mkState (locations s) (loading s) (error s) (lastUpdated s)
    (isRefreshing s) (autoRefreshEnabled s) (countdown s)
    (countdownTimer s) v.

(** [getMapData] up to its [await]: the flag is raised and the request
    is issued. *)
Definition getMapData_call (s : state) : state :=
  setInFlight (S (inFlight s)) (setIsRefreshing true s).

(** The [finally] block. *)
Definition getMapData_finally (s : state) : state :=
  setCountdown 300 (setIsRefreshing false (setLoading false s)).

(** The rest of the [try] block once the request has resolved with
    [data]; [now] is [new Date().toLocaleString()]. *)
Definition getMapData_resolved (data : list Location) (now : string)
  (s : state) : state :=
  getMapData_finally
    (setError None (setLastUpdated now (setLocations data s))).

(** The [catch] block, run when the request is rejected. *)
Definition getMapData_rejected (now : string) (s : state) : state :=
  getMapData_finally
    (setLastUpdated (now ++ " (fallback data)")
       (setLocations fallback
          (setError (Some "Failed to load map data"%string) s))).

(** The auto-refresh effect and its cleanup. *)
Definition autoRefresh_effect (s : state) : state :=
  if autoRefreshEnabled s then setCountdownTimer true s else s.

Definition autoRefresh_cleanup (s : state) : state :=
  setCountdownTimer false s.

(** The callback of [countdownTimer]: the updater handed to
    [setCountdown], run once per tick, with the call of [getMapData] it
    makes when the countdown has run out. *)
Definition countdownTimer_callback (s : state) : state :=
  if (countdown s <=? 1)%Z
  then setCountdown 300 (getMapData_call s)
  else setCountdown (countdown s - 1) s.

(** [toggleAutoRefresh], followed by the re-run of the effect that
    depends on [autoRefreshEnabled]. *)
Definition toggleAutoRefresh (s : state) : state :=
  autoRefresh_effect
    (autoRefresh_cleanup
       (setAutoRefreshEnabled (negb (autoRefreshEnabled s)) s)).

(** The state after the first render and its two mount effects. *)
Definition mount (initialLoading : bool) : state :=
  autoRefresh_effect
    (getMapData_call
       (setLoading true
          (mkState [] initialLoading None "" false true 300 false 0))).

(** What can happen to a mounted component. *)
Inductive event : Type :=
| Tick
| ToggleAutoRefresh
| RefreshNow
| FetchResolved (data : list Location) (now : string)
| FetchRejected (now : string).

(** One event.  [None]: the event cannot occur in this state.  The
    interval fires only while it is registered; the two buttons exist
    only once the skeleton ([if (loading)]) is gone, and "Refresh Now"
    carries [disabled={isRefreshing}]; a request can settle only if one
    is outstanding. *)
Definition step (s : state) (e : event) : option state :=
  match e with
  | Tick =>
      if countdownTimer s then Some (countdownTimer_callback s) else None
  | ToggleAutoRefresh =>
      if loading s then None else Some (toggleAutoRefresh s)
  | RefreshNow =>
      if loading s || isRefreshing s then None
      else Some (getMapData_call s)
  | FetchResolved data now =>
      match inFlight s with
      | O => None
      | S n => Some (getMapData_resolved data now (setInFlight n s))
      end
  | FetchRejected now =>
      match inFlight s with
      | O => None
      | S n => Some (getMapData_rejected now (setInFlight n s))
      end
  end.

Fixpoint run (s : state) (es : list event) : option state :=
  match es with
  | [] => Some s
  | e :: es' => s' <- step s e ;; run s' es'
  end.

Inductive reachable : state -> Prop :=
| reachable_mount : forall initialLoading, reachable (mount initialLoading)
| reachable_step : forall s e s',
    reachable s -> step s e = Some s' -> reachable s'.

(** What the hooks keep true from one event to the next: the interval
    is registered exactly while auto-refresh is on, the countdown
    stays within 1..300, and the flag is raised only while a request
    is outstanding. *)
Definition consistent (s : state) : Prop :=
  countdownTimer s = autoRefreshEnabled s
  /\ (1 <= countdown s <= 300)%Z
  /\ (isRefreshing s = true -> (0 < inFlight s)%nat).

(** What is on display: while the skeleton is shown nothing has been
    loaded yet and a request is outstanding; while the error banner is
    shown the locations are the fallback list and the label says so. *)
Definition coherent (s : state) : Prop :=
  (loading s = true ->
     locations s = [] /\ error s = None /\ lastUpdated s = ""%string
     /\ (0 < inFlight s)%nat)
  /\ (error s <> None ->
        locations s = fallback
        /\ exists now, lastUpdated s = (now ++ " (fallback data)")%string).

(** *** The view *)

Definition formatCountdown (seconds : Z) : string :=
  let mins := (seconds / 60)%Z in
  let secs := Z.rem seconds 60 in
  (Number_toString mins ++ ":" ++ (if (secs <? 10)%Z then "0" else "")
     ++ Number_toString secs)%string.

Context {M : JsMath num}.

(** The radii of the three circle markers drawn for a location: the
    large, faint one, the medium one and the small one at the centre. *)
Definition radius_large (loc : Location) : option num :=
  q <- aqi loc / lit 5 0 ;; Some (Math_max q (lit 30 0)).

Definition radius_medium (loc : Location) : option num :=
  q <- aqi loc / lit 8 0 ;; Some (Math_max q (lit 20 0)).

Definition radius_small (loc : Location) : option num :=
  q <- aqi loc / lit 15 0 ;; Some (Math_max q (lit 10 0)).

(** [handleMapClick]: the value handed to [setClickedLocation].
    [toFixed x 4] stands for [x.toFixed(4)]. *)
Variable toFixed : num -> nat -> string.

Definition handleMapClick (locations : list Location) (lat lng : num)
  : option Location :=
  estimatedAQI <- estimateAQI locations lat lng ;;
  let locationName :=
    ("Location at " ++ toFixed lat 4 ++ ", " ++ toFixed lng 4)%string in
  Some (mkLocation locationName (lat, lng) estimatedAQI None).

End Component.

Arguments Location : clear implicits.
Arguments state : clear implicits.
Arguments event : clear implicits.

End AQIMap.

(** ** AQIGauge.tsx *)

Module AQIGauge.

Section Component.

Context {num : Type} {N : JsNumber num}.
Local Open Scope js_scope.

(** The object literal returned by [getAQILevel]. *)
Record level : Type := mkLevel {
  label : string;
  color : string;
  text : string
}.

Definition getAQILevel (aqi : num) : level :=
  if aqi <=? lit 50 0
  then mkLevel "Good" "bg-green-500" "text-green-500"
  else if aqi <=? lit 100 0
  then mkLevel "Moderate" "bg-yellow-500" "text-yellow-500"
  else if aqi <=? lit 150 0
  then mkLevel "Unhealthy for Sensitive Groups" "bg-orange-500"
         "text-orange-500"
  else if aqi <=? lit 200 0
  then mkLevel "Unhealthy" "bg-red-500" "text-red-500"
  else if aqi <=? lit 300 0
  then mkLevel "Very Unhealthy" "bg-purple-500" "text-purple-500"
  else mkLevel "Hazardous" "bg-red-900" "text-red-900".

Context {M : JsMath num}.

Definition gaugePercent (value : num) : option num :=
  q <- value / lit 500 0 ;; Some (Math_min (q * lit 100 0) (lit 100 0)).

(** The first number of [strokeDasharray], the length of the drawn arc
    (the second, the circumference, is 283). *)
Definition strokeDash (value : num) : option num :=
  percent <- gaugePercent value ;; Some (percent * lit 283 2).

(** The [stroke] attribute of the value circle. *)
Definition stroke (value : num) : string :=
  String_replace "bg-" "text-" (color (getAQILevel value)).

End Component.

End AQIGauge.

(** ** AQILegend.tsx *)

Module AQILegend.

(** The rows of the legend: background colour and text. *)
Definition rows : list (string * string) :=
  [ ("#10B981", "Good (0-50)");
    ("#F59E0B", "Moderate (51-100)");
    ("#F97316", "Unhealthy for Sensitive Groups (101-150)");
    ("#EF4444", "Unhealthy (151-200)");
    ("#8B5CF6", "Very Unhealthy (201-300)");
    ("#991B1B", "Hazardous (300+)") ]%string.

End AQILegend.

(** ** pages/Alerts.tsx *)

Module Alerts.

Section Component.

Context {num : Type} {N : JsNumber num}.
Local Open Scope js_scope.

Definition getAQILabel (aqi : num) : string :=
  if aqi <=? lit 50 0 then "Good"%string
  else if aqi <=? lit 100 0 then "Moderate"%string
  else if aqi <=? lit 150 0 then "Unhealthy for Sensitive Groups"%string
  else if aqi <=? lit 200 0 then "Unhealthy"%string
  else if aqi <=? lit 300 0 then "Very Unhealthy"%string
  else "Hazardous"%string.

Local Open Scope string_scope.
Local Open Scope js_scope.

(** *** The forecast page *)

Definition getAQIColor (aqi : num) : string :=
  if aqi <=? lit 50 0 then "bg-green-500"
  else if aqi <=? lit 100 0 then "bg-yellow-500"
  else if aqi <=? lit 150 0 then "bg-orange-500"
  else if aqi <=? lit 200 0 then "bg-red-500"
  else if aqi <=? lit 300 0 then "bg-purple-500"
  else "bg-red-900".

Definition getAQITextColor (aqi : num) : string :=
  if aqi <=? lit 50 0 then "text-green-500"
  else if aqi <=? lit 100 0 then "text-yellow-500"
  else if aqi <=? lit 150 0 then "text-orange-500"
  else if aqi <=? lit 200 0 then "text-red-500"
  else if aqi <=? lit 300 0 then "text-purple-500"
  else "text-red-900".

Definition getRecommendationsForAQI (aqi : num) : list string :=
  if aqi <=? lit 50 0 then
    [ "Air quality is good, enjoy outdoor activities";
      "No special precautions needed";
      "Great day for outdoor exercise";
      "Open windows for natural ventilation" ]
  else if aqi <=? lit 100 0 then
    [ "Air quality is acceptable for most individuals";
      "Sensitive groups should consider limiting prolonged outdoor exertion";
      "Good day for moderate outdoor activities";
      "Keep windows open during cleaner periods of the day" ]
  else if aqi <=? lit 150 0 then
    [ "Moderate outdoor activities";
      "Sensitive groups should limit outdoor exposure";
      "Use air purifiers indoors if available";
      "Consider wearing masks when outdoors" ]
  else if aqi <=? lit 200 0 then
    [ "Avoid prolonged outdoor exertion";
      "Keep windows closed and use air purifiers";
      "Wear N95 masks when outdoors";
      "Consider working from home if possible" ]
  else
    [ "Minimize all outdoor activities";
      "Keep windows closed at all times";
      "Use air purifiers on high setting";
      "Wear N95 masks if you must go outside" ].

(** [type ForecastDay], with its [pollutants] object. *)
Record Pollutants : Type := mkPollutants {
  p_pm25 : num;
  p_pm10 : num;
  p_o3 : num;
  p_no2 : num
}.

Record ForecastDay : Type := mkForecastDay {
  fd_date : string;
  aqi_max : num;
  aqi_min : num;
  pollutants : Pollutants
}.

(** [type HourlyData] *)
Record HourlyData : Type := mkHourlyData {
  time : string;
  h_aqi : num;
  h_pm25 : num;
  h_pm10 : num;
  wind : num
}.

(** [type FormattedForecastDay] *)
Record FormattedForecastDay : Type := mkFormattedForecastDay {
  date : string;
  maxAQI : num;
  hourly : list HourlyData;
  recommendations : list string
}.

Context {M : JsMath num}.

(** The callback of [apiData.map] in [formatForecastData].  [random n] is
    the result of the n-th call of [Math.random] made by
    [formatForecastData]; the callback makes four calls, from [calls] on,
    in the order of the four slots. *)
Definition formatForecastDay (random : nat -> num) (calls : nat)
    (day : ForecastDay) : FormattedForecastDay :=
  mkFormattedForecastDay
    (fd_date day)
    (aqi_max day)
    [ mkHourlyData "06:00"
        (Math_round (aqi_min day * lit 105 2))
        (Math_round (p_pm25 (pollutants day) * lit 9 1))
        (Math_round (p_pm10 (pollutants day) * lit 9 1))
        (lit 5 0 + Math_floor (random calls * lit 5 0));
      mkHourlyData "12:00"
        (Math_round (aqi_max day))
        (Math_round (p_pm25 (pollutants day) * lit 11 1))
        (Math_round (p_pm10 (pollutants day) * lit 11 1))
        (lit 8 0 + Math_floor (random (calls + 1)%nat * lit 5 0));
      mkHourlyData "18:00"
        (Math_round (aqi_max day * lit 95 2))
        (Math_round (p_pm25 (pollutants day)))
        (Math_round (p_pm10 (pollutants day)))
        (lit 6 0 + Math_floor (random (calls + 2)%nat * lit 5 0));
      mkHourlyData "00:00"
        (Math_round (aqi_min day))
        (Math_round (p_pm25 (pollutants day) * lit 8 1))
        (Math_round (p_pm10 (pollutants day) * lit 8 1))
        (lit 4 0 + Math_floor (random (calls + 3)%nat * lit 5 0)) ]
    (getRecommendationsForAQI (aqi_max day)).



(** *** The dashboard page *)

Definition getLevelLabel (value : num) (pollutant : string) : string :=
  if String.eqb pollutant "pm25" then
    if value <=? lit 12 0 then "low"
    else if value <=? lit 35 0 then "moderate" else "high"
  else if String.eqb pollutant "pm10" then
    if value <=? lit 54 0 then "low"
    else if value <=? lit 154 0 then "moderate" else "high"
  else if String.eqb pollutant "o3" then
    if value <=? lit 50 0 then "low"
    else if value <=? lit 100 0 then "moderate" else "high"
  else if String.eqb pollutant "no2" then
    if value <=? lit 53 0 then "low"
    else if value <=? lit 100 0 then "moderate" else "high"
  else if String.eqb pollutant "so2" then
    if value <=? lit 35 0 then "low"
    else if value <=? lit 75 0 then "moderate" else "high"
  else if String.eqb pollutant "co" then
    if value <=? lit 44 1 then "low"
    else if value <=? lit 94 1 then "moderate" else "high"
  else "moderate".

(** *** The alerts page *)

(** [type AlertLevel = 'low' | 'moderate' | 'high' | 'severe'] *)
Inductive AlertLevel : Type := low | moderate | high | severe.

Definition AlertLevel_string (l : AlertLevel) : string :=
  match l with
  | low => "low"
  | moderate => "moderate"
  | high => "high"
  | severe => "severe"
  end.

Record Alert : Type := mkAlert {
  id : string;
  level : AlertLevel;
  title : string;
  message : string;
  timestamp : string;
  location : option string
}.

Record LocationData : Type := mkLocationData {
  ld_location : string;
  ld_coordinates : num * num;
  ld_aqi : num;
  ld_pm25 : num
}.

(** The two chained [filter]s that give [filteredAlerts]; [!alert.location]
    holds for a missing and for an empty location. *)
Definition filteredAlerts (alerts : list Alert)
    (alertLevel selectedLocation : string) : list Alert :=
  filter
    (fun alert =>
       String.eqb selectedLocation "all"
       || match location alert with
          | Some l => String.eqb l selectedLocation
          | None => false
          end
       || match location alert with
          | Some l => String.eqb l ""
          | None => true
          end)
    (filter
       (fun alert =>
          String.eqb alertLevel "all"
          || String.eqb (AlertLevel_string (level alert)) alertLevel)
       alerts).

(** [formatTimestamp], given [date.getTime()] and [now.getTime()] in
    milliseconds (the timestamp is taken to parse to a valid date) and
    [date.toLocaleDateString()]. *)
Definition formatTimestamp (date now : Z) (localeDate : string) : string :=
  let diffMs := (now - date)%Z in
  let diffMins := Math_round_quotient diffMs 60000 in
  let diffHours := Math_round_quotient diffMs 3600000 in
  let diffDays := Math_round_quotient diffMs 86400000 in
  if (diffMins <? 60)%Z then Number_toString diffMins ++ " minutes ago"
  else if (diffHours <? 24)%Z then Number_toString diffHours ++ " hours ago"
  else if (diffDays =? 1)%Z then "Yesterday"
  else localeDate.

(** The object [levels] of [generateRecommendations]. *)
Definition levels (l : AlertLevel) : Z :=
  match l with
  | low => 1
  | moderate => 2
  | high => 3
  | severe => 4
  end.

(** The [reduce] that finds the highest alert level; [x || 0] is 0 for a
    falsy [x]. *)
Definition highestLevel (alerts : list Alert) : Z :=
  fold_left
    (fun highest alert =>
       Z.max highest
         (if (levels (level alert) =? 0)%Z then 0 else levels (level alert)))
    alerts 0%Z.

(** [String(x)] for the index of a location. *)
Variable Number_string : num -> string.

Definition locationRecommendations (locations : list LocationData)
    (selectedLocation : string) : list string :=
  if negb (String.eqb selectedLocation "all") then
    match find (fun loc => String.eqb (ld_location loc) selectedLocation)
            locations with
    | Some locationData =>
        if lit 200 0 <? ld_aqi locationData then
          [ selectedLocation
              ++ " is experiencing very unhealthy air quality (AQI: "
              ++ Number_string (ld_aqi locationData)
              ++ "). Avoid all outdoor activities in this area." ]
        else if lit 150 0 <? ld_aqi locationData then
          [ selectedLocation
              ++ " currently has unhealthy air quality (AQI: "
              ++ Number_string (ld_aqi locationData)
              ++ "). Limit time outdoors in this area." ]
        else if lit 100 0 <? ld_aqi locationData then
          [ selectedLocation
              ++ " has moderate air quality concerns (AQI: "
              ++ Number_string (ld_aqi locationData)
              ++ "). Sensitive groups should take precautions." ]
        else []
    | None => []
    end
  else [].

Definition generalRecommendations (alerts : list Alert) : list string :=
  if (4 <=? highestLevel alerts)%Z then
    [ "Minimize outdoor activities, especially during morning and evening hours";
      "Keep windows closed and use air purifiers";
      "Wear N95/N99 masks when going outdoors";
      "Stay hydrated and maintain good respiratory hygiene";
      "Consider temporarily relocating if you have severe respiratory conditions" ]
  else if (3 <=? highestLevel alerts)%Z then
    [ "Limit outdoor activities, especially for sensitive groups";
      "Keep windows closed during peak pollution hours (8-10 AM and 6-8 PM)";
      "Use air purifiers indoors if available";
      "Wear masks when going outdoors";
      "Monitor symptoms if you have respiratory conditions" ]
  else if (2 <=? highestLevel alerts)%Z then
    [ "Sensitive groups should reduce prolonged outdoor exertion";
      "Consider keeping windows closed during rush hours";
      "Stay updated on air quality changes throughout the day";
      "Keep medications handy if you have asthma or other respiratory conditions" ]
  else
    [ "Air quality is acceptable, but watch for changes";
      "Continue with normal activities and stay informed";
      "Check air quality before planning extended outdoor activities";
      "Monitor for any unusual respiratory symptoms" ].

Definition generateRecommendations (alerts : list Alert)
    (locations : list LocationData) (selectedLocation : string)
  : list string * list string :=
  (locationRecommendations locations selectedLocation,
   generalRecommendations alerts).

End Component.

Arguments LocationData : clear implicits.
Arguments ForecastDay : clear implicits.
Arguments HourlyData : clear implicits.
Arguments FormattedForecastDay : clear implicits.

End Alerts.

(** ** The specification's vocabulary *)

(** The definitions of this module follow the words of the specification,
    over the rationals; the theorems below compare them with the functions
    translated from the source. *)
Module Spec.

Import AQIMap.

(** "within a fixed tolerance box (Δlat < 0.005 AND Δlng < 0.005)" *)
Definition in_tolerance_box (lat lng : Q) (loc : Location Q) : Prop :=
  Qabs (lat - fst (coordinates loc)) < 5 # 1000
  /\ Qabs (lng - snd (coordinates loc)) < 5 # 1000.

(** "squared Euclidean distance in coordinate space" *)
Definition distance2 (lat lng : Q) (loc : Location Q) : Q :=
  (fst (coordinates loc) - lat) ^ 2 + (snd (coordinates loc) - lng) ^ 2.

(** "weight = 1/distance² (weight = 1 if distance² is exactly 0)" *)
Definition weight (lat lng : Q) (loc : Location Q) : Q :=
  if Qeq_dec (distance2 lat lng loc) 0 then 1
  else 1 / distance2 lat lng loc.

Fixpoint sum (f : Location Q -> Q) (locs : list (Location Q)) : Q :=
  match locs with
  | [] => 0
  | loc :: rest => f loc + sum f rest
  end.

(** "Σ(weight × pollutionIndex) / Σ(weight)" *)
Definition idw (locs : list (Location Q)) (lat lng : Q) : Q :=
  sum (fun loc => weight lat lng loc * aqi loc) locs
  / sum (weight lat lng) locs.

(** "rounded to the nearest integer" *)
Definition nearest_integer (x : Q) (z : Z) : Prop :=
  Qabs (x - inject_Z z) <= 1 # 2.

(** The classification table: "index ≤50 → Good; ≤100 → Moderate; ≤150 →
    Unhealthy for Sensitive Groups; ≤200 → Unhealthy; ≤300 → Very
    Unhealthy; >300 → Hazardous". *)
Definition table (index : Q) (category : string) : Prop :=
  (index <= 50 /\ category = "Good"%string)
  \/ (50 < index <= 100 /\ category = "Moderate"%string)
  \/ (100 < index <= 150
      /\ category = "Unhealthy for Sensitive Groups"%string)
  \/ (150 < index <= 200 /\ category = "Unhealthy"%string)
  \/ (200 < index <= 300 /\ category = "Very Unhealthy"%string)
  \/ (300 < index /\ category = "Hazardous"%string).

(** The states of the refresh state machine: "Idle (waiting, countdown
    ticking), Refreshing (fetch in flight), Disabled (auto-refresh turned
    off by user)". *)
Definition Idle {num : Type} (s : state num) : Prop :=
  autoRefreshEnabled s = true /\ inFlight s = 0%nat.

Definition Refreshing {num : Type} (s : state num) : Prop :=
  (0 < inFlight s)%nat.

Definition Disabled {num : Type} (s : state num) : Prop :=
  autoRefreshEnabled s = false.

(** "The countdown decrements" in a step. *)
Definition decrements {num : Type} (s s' : state num) : Prop :=
  (countdown s' < countdown s)%Z.

End Spec.

(** The interpolation rule read in the arithmetic of the program:
    every operation is the binary64 one, and a sum is taken in iteration
    order, starting from 0. *)
Module Spec64.

Import AQIMap.
Local Open Scope float_scope.

(** The double nearest to 0.005. *)
Definition tolerance : float := 0x1.47ae147ae147bp-8.

Definition in_tolerance_box (lat lng : float) (loc : Location float) : Prop :=
  (abs (lat - fst (coordinates loc)) <? tolerance) = true
  /\ (abs (lng - snd (coordinates loc)) <? tolerance) = true.

Definition distance2 (lat lng : float) (loc : Location float) : float :=
  (lat - fst (coordinates loc)) * (lat - fst (coordinates loc))
  + (lng - snd (coordinates loc)) * (lng - snd (coordinates loc)).

Definition weight (lat lng : float) (loc : Location float) : float :=
  if distance2 lat lng loc =? 0 then 1 else 1 / distance2 lat lng loc.

Definition sum (f : Location float -> float) (locs : list (Location float))
  : float :=
  fold_left (fun acc loc => acc + f loc) locs 0.

Definition idw (locs : list (Location float)) (lat lng : float) : float :=
  sum (fun loc => weight lat lng loc * aqi loc) locs
  / sum (weight lat lng) locs.

End Spec64.

(** ** Concrete data of the specification's scenarios *)

Module Scenario.

Import AQIMap.

Section Data.

Context {num : Type} {N : JsNumber num}.

(** [{"A",(28.40,77.00),100}, {"B",(28.42,77.02),200}] *)
Definition station_A : Location num :=
  mkLocation "A" (lit 2840 2, lit 7700 2) (lit 100 0) None.

Definition station_B : Location num :=
  mkLocation "B" (lit 2842 2, lit 7702 2) (lit 200 0) None.

Definition two_stations : list (Location num) := [station_A; station_B].

(** Two stations 0.002 degrees apart in latitude and in longitude. *)
Definition near_A : Location num :=
  mkLocation "A" (lit 28400 3, lit 77000 3) (lit 100 0) None.

Definition near_B : Location num :=
  mkLocation "B" (lit 28402 3, lit 77002 3) (lit 200 0) None.

Definition close_stations : list (Location num) := [near_A; near_B].

(** One station reporting the index 175.5. *)
Definition one_station : list (Location num) :=
  [ mkLocation "A" (lit 2840 2, lit 7700 2) (lit 1755 1) None ].



(** The component once its first fetch has been answered. *)
Definition loaded : state num :=
  getMapData_resolved two_stations "t0" (setInFlight 0 (mount true)).

(** The component after its first fetch has failed. *)
Definition failed : state num :=
  getMapData_rejected "t0" (setInFlight 0 (mount true)).


(** Two stations 0.375 degrees north and south of the point (28, 77);
    every coordinate and index is a binary64 value. *)
Definition tie_stations : list (Location num) :=
  [ mkLocation "P" (lit 28375 3, lit 77 0) (lit 57 0) None;
    mkLocation "R" (lit 27625 3, lit 77 0) (lit 158 0) None ].

(** Three stations around the point (28, 77), likewise on binary64
    values. *)
Definition three_stations : list (Location num) :=
  [ mkLocation "a" (lit 2825 2, lit 775 1) (lit 215 0) None;
    mkLocation "b" (lit 27 0, lit 765 1) (lit 114 0) None;
    mkLocation "c" (lit 285 1, lit 78 0) (lit 79 0) None ].

(** One day of the backend forecast, and a [Math.random] that always
    answers 0.5. *)
Definition forecast_day : Alerts.ForecastDay num :=
  Alerts.mkForecastDay "2025-01-01" (lit 180 0) (lit 120 0)
    (Alerts.mkPollutants (lit 80 0) (lit 140 0) (lit 30 0) (lit 40 0)).

Definition always_half : nat -> num := fun _ => lit 5 1.

End Data.

End Scenario.

(** * Properties *)

(** ** The estimator, over any interpretation of [number] *)

Section EstimatorAnyNumber.

Import AQIMap.
Context {num : Type} {N : JsNumber num}.
Variables lat lng : num.

Lemma estimateAQI_empty : estimateAQI [] lat lng = Some (lit 0 0).
Proof. reflexivity. Qed.

Lemma find_first_match (p : Location num -> bool) pre loc post :
  (forall l, In l pre -> p l = false) ->
  p loc = true ->
  find p (pre ++ loc :: post) = Some loc.
Proof.
  induction pre as [|x pre IH]; intros Hpre Hloc; simpl.
  - now rewrite Hloc.
  - rewrite (Hpre x) by now left.
    apply IH; [intros l Hl; apply Hpre; now right | exact Hloc].
Qed.



(** The short-circuit of [estimateAQI]: the first location, in list
    order, that passes the [nearby] test decides the result, whatever
    follows it. *)
Lemma estimateAQI_first_nearby pre loc post :
  (forall l, In l pre -> nearby lat lng l = false) ->
  nearby lat lng loc = true ->
  estimateAQI (pre ++ loc :: post) lat lng = Some (aqi loc).
Proof.
  intros Hpre Hloc. unfold estimateAQI.
  rewrite (find_first_match _ pre loc post Hpre Hloc).
  now destruct pre.
Qed.

Lemma estimateAQI_none_nearby locs :
  locs <> [] ->
  find (nearby lat lng) locs = None ->
  estimateAQI locs lat lng =
    bind (forEach lat lng locs (lit 0 0, lit 0 0))
      (fun sums => bind (div (snd sums) (fst sums))
                     (fun q => Some (Math_round q))).
Proof.
  intros Hne Hf. unfold estimateAQI. rewrite Hf.
  destruct locs as [|l locs]; [contradiction|]. cbn [List.length Nat.eqb].
  destruct (forEach lat lng (l :: locs) (lit 0 0, lit 0 0)) as [[w a]|];
    reflexivity.
Qed.

End EstimatorAnyNumber.

(** ** The estimator in exact arithmetic *)

Section EstimatorExact.

Import AQIMap.
Local Open Scope Q_scope.

Lemma lit_exact_5_3 : lit (num := Q) 5 3 = 5 # 1000.
Proof. reflexivity. Qed.

Lemma ltb_exact (x y : Q) : ltb x y = true <-> x < y.
Proof.
  cbn. rewrite negb_true_iff. split.
  - intros H. apply Qnot_le_lt. intros Hle.
    apply Qle_bool_iff in Hle. congruence.
  - intros H. destruct (Qle_bool y x) eqn:E; trivial.
    apply Qle_bool_iff in E. exfalso. exact (Qlt_not_le _ _ H E).
Qed.

(** The [find] predicate is the specification's tolerance box. *)
Lemma nearby_iff (lat lng : Q) (loc : Location Q) :
  nearby lat lng loc = true <-> Spec.in_tolerance_box lat lng loc.
Proof.
  unfold nearby, Spec.in_tolerance_box.
  destruct (coordinates loc) as [locLat locLng]. cbn [fst snd].
  rewrite andb_true_iff, !ltb_exact. reflexivity.
Qed.

Lemma nearby_false_iff (lat lng : Q) (loc : Location Q) :
  nearby lat lng loc = false <-> ~ Spec.in_tolerance_box lat lng loc.
Proof.
  rewrite <- nearby_iff. destruct (nearby lat lng loc); split;
    congruence.
Qed.

End EstimatorExact.

Section EstimatorExactSums.

Import AQIMap.
Local Open Scope Q_scope.
Variables lat lng : Q.

Lemma distance2_nonneg loc : 0 <= Spec.distance2 lat lng loc.
Proof.
  unfold Spec.distance2. simpl.
  set (a := fst (coordinates loc) - lat). set (b := snd (coordinates loc) - lng).
  nra.
Qed.

Lemma weight_pos loc : 0 < Spec.weight lat lng loc.
Proof.
  unfold Spec.weight.
  destruct (Qeq_dec (Spec.distance2 lat lng loc) 0) as [E|E]; [reflexivity|].
  assert (Hd : 0 < Spec.distance2 lat lng loc).
  { pose proof (distance2_nonneg loc) as Hn.
    apply Qle_lt_or_eq in Hn. destruct Hn as [Hn|Hn]; trivial.
    exfalso. apply E. now symmetry. }
  unfold Qdiv. rewrite Qmult_1_l. now apply Qinv_lt_0_compat.
Qed.

Lemma sum_weight_nonneg locs : 0 <= Spec.sum (Spec.weight lat lng) locs.
Proof.
  induction locs as [|l locs IH]; simpl; [apply Qle_refl|].
  pose proof (weight_pos l). lra.
Qed.

Lemma sum_weight_pos locs :
  locs <> [] -> 0 < Spec.sum (Spec.weight lat lng) locs.
Proof.
  destruct locs as [|l locs]; [contradiction|]. intros _. simpl.
  pose proof (weight_pos l). pose proof (sum_weight_nonneg locs). lra.
Qed.

(** One turn of the loop adds the specification's weight, and never
    meets a zero divisor. *)
Lemma accumulate_exact weightSum aqiSum loc :
  exists weight,
    accumulate lat lng (weightSum, aqiSum) loc
      = Some (weightSum + weight, aqiSum + aqi loc * weight)
    /\ weight == Spec.weight lat lng loc.
Proof.
  unfold accumulate, Spec.weight, Spec.distance2.
  destruct (coordinates loc) as [locLat locLng]. cbn [fst snd].
  cbn [Math_pow_2 add sub mul div eqb Exact.number].
  set (d := (lat - locLat) * (lat - locLat) + (lng - locLng) * (lng - locLng)).
  assert (Hd : (locLat - lat) ^ 2 + (locLng - lng) ^ 2 == d).
  { unfold d. simpl. ring. }
  change (lit (num := Q) 0 0) with 0. change (lit (num := Q) 1 0) with 1.
  destruct (Qeq_bool d 0) eqn:E.
  - exists 1. split; [reflexivity|].
    apply Qeq_bool_iff in E.
    destruct (Qeq_dec _ 0) as [_|Hn]; [reflexivity|].
    exfalso. apply Hn. now rewrite Hd.
  - exists (1 / d). unfold Exact.quotient. rewrite E. split; [reflexivity|].
    apply Qeq_bool_neq in E.
    destruct (Qeq_dec _ 0) as [Hz|_].
    + exfalso. apply E. now rewrite <- Hd.
    + now rewrite Hd.
Qed.

(** The loop computes the two sums of the specification. *)
Lemma forEach_exact locs : forall weightSum aqiSum,
  exists weightSum' aqiSum',
    forEach lat lng locs (weightSum, aqiSum) = Some (weightSum', aqiSum')
    /\ weightSum' == weightSum + Spec.sum (Spec.weight lat lng) locs
    /\ aqiSum' == aqiSum
         + Spec.sum (fun loc => Spec.weight lat lng loc * aqi loc) locs.
Proof.
  induction locs as [|l locs IH]; intros weightSum aqiSum.
  - exists weightSum, aqiSum. simpl. repeat split; ring.
  - destruct (accumulate_exact weightSum aqiSum l) as (w & Hacc & Hw).
    destruct (IH (weightSum + w) (aqiSum + aqi l * w))
      as (ws' & as' & Hloop & Hws & Has).
    exists ws', as'. cbn [forEach]. rewrite Hacc. cbn [bind].
    split; [exact Hloop|]. cbn [Spec.sum]. split.
    + rewrite Hws, Hw. ring.
    + rewrite Has, Hw. ring.
Qed.

Lemma round_nearest (x : Q) :
  Spec.nearest_integer x (Qfloor (x + (1 # 2))).
Proof.
  unfold Spec.nearest_integer.
  pose proof (Qfloor_le (x + (1 # 2))) as Hlo.
  pose proof (Qlt_floor (x + (1 # 2))) as Hhi.
  rewrite inject_Z_plus in Hhi. change (inject_Z 1) with 1 in Hhi.
  apply Qabs_Qle_condition. split; lra.
Qed.

(** Away from every tolerance box the estimate is the rounded
    inverse-distance-weighted mean. *)
Lemma estimateAQI_idw locs :
  locs <> [] ->
  find (nearby lat lng) locs = None ->
  estimateAQI locs lat lng
    = Some (inject_Z (Qfloor (Spec.idw locs lat lng + (1 # 2)))).
Proof.
  intros Hne Hf. rewrite (estimateAQI_none_nearby lat lng locs Hne Hf).
  destruct (forEach_exact locs 0 0) as (ws & as' & Hloop & Hws & Has).
  change (lit (num := Q) 0 0) with 0. rewrite Hloop. cbn [bind fst snd].
  pose proof (sum_weight_pos locs Hne) as Hpos.
  assert (Hnz : ~ ws == 0) by (rewrite Hws; lra).
  cbn [div Exact.number]. unfold Exact.quotient.
  destruct (Qeq_bool ws 0) eqn:E; [apply Qeq_bool_iff in E; contradiction|].
  cbn [bind Math_round Exact.number]. unfold Exact.round.
  do 2 f_equal. apply Qfloor_comp. unfold Spec.idw.
  rewrite Hws, Has. rewrite !Qplus_0_l. reflexivity.
Qed.

(** In exact arithmetic [estimateAQI] always has a value: neither [/] of
    the function meets a zero divisor. *)
Lemma estimateAQI_total locs : exists v, estimateAQI locs lat lng = Some v.
Proof.
  destruct locs as [|l locs]; [eexists; reflexivity|].
  destruct (find (nearby lat lng) (l :: locs)) as [n|] eqn:Hf.
  - exists (aqi n). unfold estimateAQI. now rewrite Hf.
  - eexists. apply estimateAQI_idw; [discriminate | exact Hf].
Qed.

End EstimatorExactSums.

(** ** Claims about the estimator *)

Section EstimatorClaims.

Import AQIMap.
Local Open Scope Q_scope.

Lemma find_none_of_all_false (A : Type) (p : A -> bool) (l : list A) :
  (forall x, In x l -> p x = false) -> find p l = None.
Proof.
  induction l as [|x l IH]; intros H; simpl; [reflexivity|].
  rewrite (H x) by now left. apply IH. intros y Hy. apply H. now right.
Qed.

Lemma estimateAQI_two_stations_exact :
  estimateAQI (num := Q) Scenario.two_stations (lit 2841 2) (lit 7701 2)
    = Some (lit 150 0).
Proof. vm_compute. reflexivity. Qed.

(** The same scenario evaluated in binary64, as a JavaScript engine
    evaluates it: the two weights differ in the last digits and the
    mean, 150.00000000003553, still rounds to 150. *)
Lemma estimateAQI_two_stations_binary64 :
  estimateAQI (num := float) Scenario.two_stations (lit 2841 2) (lit 7701 2)
    = Some (lit 150 0).
Proof. vm_compute. reflexivity. Qed.

(** The interpolation rule in exact arithmetic (the formulas of the
    specification, not the rounding of the engine): for a non-empty
    location set and a query point that lies in the
    tolerance box of no location, [estimateAQI] returns the
    inverse-distance-weighted mean Σ(weight × pollutionIndex) / Σ(weight),
    with weight = 1/d² (1 when d² is 0), rounded to the nearest integer
    (a tie going up); the sum of the weights is positive, so the mean is
    well defined.  For the stations A (28.40, 77.00, index 100) and
    B (28.42, 77.02, index 200) and the point (28.41, 77.01) the estimate
    is 150. *)
Theorem estimateAQI_rounded_weighted_mean
    (locs : list (Location Q)) (lat lng : Q) :
  locs <> [] ->
  (forall loc, In loc locs -> ~ Spec.in_tolerance_box lat lng loc) ->
  (exists z : Z,
      estimateAQI locs lat lng = Some (inject_Z z)
      /\ z = Qfloor (Spec.idw locs lat lng + (1 # 2))
      /\ Spec.nearest_integer (Spec.idw locs lat lng) z)
  /\ 0 < Spec.sum (Spec.weight lat lng) locs
  /\ estimateAQI (num := Q) Scenario.two_stations (lit 2841 2) (lit 7701 2)
       = Some (lit 150 0).
Proof.
  intros Hne Hfar. split; [|split].
  - exists (Qfloor (Spec.idw locs lat lng + (1 # 2))).
    split; [|split]; [|reflexivity|apply round_nearest].
    apply estimateAQI_idw; [exact Hne|].
    apply find_none_of_all_false. intros l Hl.
    apply nearby_false_iff. now apply Hfar.
  - now apply sum_weight_pos.
  - exact estimateAQI_two_stations_exact.
Qed.





End EstimatorClaims.

Section EstimatorClaimsContinued.

Import AQIMap.
Local Open Scope Q_scope.

Lemma estimateAQI_rounded_weighted_mean_witness :
  (exists z : Z,
      estimateAQI (num := Q) Scenario.two_stations (lit 2841 2) (lit 7701 2)
        = Some (inject_Z z)
      /\ z = Qfloor (Spec.idw Scenario.two_stations (lit 2841 2) (lit 7701 2)
                     + (1 # 2))
      /\ Spec.nearest_integer
           (Spec.idw Scenario.two_stations (lit 2841 2) (lit 7701 2)) z)
  /\ 0 < Spec.sum (Spec.weight (lit 2841 2) (lit 7701 2))
           Scenario.two_stations
  /\ estimateAQI (num := Q) Scenario.two_stations (lit 2841 2) (lit 7701 2)
       = Some (lit 150 0).
Proof.
  apply (estimateAQI_rounded_weighted_mean
           Scenario.two_stations (lit 2841 2) (lit 7701 2)).
  - discriminate.
  - intros loc [<-|[<-|[]]] [H _]; vm_compute in H; discriminate H.
Defined.



Lemma estimateAQI_at_station_shadowed_binary64 :
  estimateAQI (num := float) Scenario.close_stations
    (fst (coordinates Scenario.near_B)) (snd (coordinates Scenario.near_B))
  = Some (lit 100 0).
Proof. vm_compute. reflexivity. Qed.


Lemma idw_single (loc : Location Q) (lat lng : Q) :
  Spec.idw [loc] lat lng == aqi loc.
Proof.
  unfold Spec.idw. cbn [Spec.sum].
  pose proof (weight_pos lat lng loc) as Hw.
  field. lra.
Qed.

Lemma estimateAQI_single (loc : Location Q) (lat lng : Q) :
  estimateAQI [loc] lat lng
    = Some (if nearby lat lng loc then aqi loc
            else inject_Z (Qfloor (aqi loc + (1 # 2)))).
Proof.
  destruct (nearby lat lng loc) eqn:Hn.
  - apply (estimateAQI_first_nearby lat lng [] loc []); [intros l []|exact Hn].
  - rewrite estimateAQI_idw; [|discriminate|simpl; now rewrite Hn].
    do 2 f_equal. apply Qfloor_comp. now rewrite idw_single.
Qed.

Lemma Qfloor_integer_half (n : Z) : Qfloor (inject_Z n + (1 # 2)) = n.
Proof.
  unfold Qfloor, Qplus, inject_Z. cbn [Qnum Qden].
  symmetry. apply (Z.div_unique _ _ n 1); lia.
Qed.

(** In exact arithmetic one station reporting 175.5, queried 0.05
    degrees away, yields 176. *)
Lemma estimateAQI_single_station_rounds :
  map aqi (Scenario.one_station (num := Q)) = [lit 1755 1]
  /\ estimateAQI (num := Q) Scenario.one_station (lit 2845 2) (lit 7705 2)
     = Some (lit 176 0)
  /\ ~ lit 176 0 == lit 1755 1.
Proof.
  split; [reflexivity|]. split; [vm_compute; reflexivity|].
  intros H; vm_compute in H; discriminate H.
Qed.

Lemma estimateAQI_single_station_rounds_binary64 :
  estimateAQI (num := float) Scenario.one_station (lit 2845 2) (lit 7705 2)
  = Some (lit 176 0).
Proof. vm_compute. reflexivity. Qed.

(** One location in exact arithmetic (the formulas of the
    specification, not the rounding of the engine): [estimateAQI]
    always returns a value: the location's index itself when the query
    point lies in its tolerance box, and otherwise that index rounded to
    the nearest integer (a tie going up); so an integer index is returned
    exactly, wherever the query point lies. *)
Theorem estimateAQI_single_station (loc : Location Q) (lat lng : Q) :
  (exists z : Z,
      z = Qfloor (aqi loc + (1 # 2))
      /\ Spec.nearest_integer (aqi loc) z
      /\ estimateAQI [loc] lat lng
         = Some (if nearby lat lng loc then aqi loc else inject_Z z))
  /\ (forall name coords pm (n : Z),
         estimateAQI [mkLocation name coords (inject_Z n) pm] lat lng
         = Some (inject_Z n)).
Proof.
  split.
  - exists (Qfloor (aqi loc + (1 # 2))). split; [reflexivity|].
    split; [apply round_nearest | apply estimateAQI_single].
  - intros name coords pm n. rewrite estimateAQI_single. cbn [aqi].
    rewrite Qfloor_integer_half. now destruct (nearby _ _ _).
Qed.

(** C5: [estimateAQI] always returns a value.  For the empty set it is 0;
    no turn of the loop divides by zero, a location that coincides with
    the query point taking the branch that sets the weight to 1; and the
    final quotient has a positive divisor. *)
Theorem estimateAQI_never_divides_by_zero :
  (forall lat lng : Q, estimateAQI [] lat lng = Some 0)
  /\ (forall (locs : list (Location Q)) (lat lng : Q),
         exists v, estimateAQI locs lat lng = Some v)
  /\ (forall (lat lng : Q) (acc : Q * Q) (loc : Location Q),
         accumulate lat lng acc loc <> None)
  /\ (forall (loc : Location Q) (weightSum aqiSum : Q),
         accumulate (fst (coordinates loc)) (snd (coordinates loc))
           (weightSum, aqiSum) loc
         = Some (weightSum + 1, aqiSum + aqi loc * 1)).
Proof.
  split; [reflexivity|]. split; [intros; apply estimateAQI_total|]. split.
  - intros lat lng [ws as'] loc.
    destruct (accumulate_exact lat lng ws as' loc) as (w & -> & _).
    discriminate.
  - intros loc ws as'. unfold accumulate.
    destruct (coordinates loc) as [a b]. cbn [fst snd].
    cbn [Math_pow_2 add sub mul div eqb Exact.number].
    change (lit (num := Q) 0 0) with 0. change (lit (num := Q) 1 0) with 1.
    assert (E : Qeq_bool ((a - a) * (a - a) + (b - b) * (b - b)) 0 = true).
    { apply Qeq_bool_iff. ring. }
    rewrite E. reflexivity.
Qed.

End EstimatorClaimsContinued.

(** ** The classification table *)

Section ClassificationClaims.

Import AQIMap.
Local Open Scope Q_scope.

(** The three classifiers are the same function, for every
    interpretation of [number] (NaN included, which all three send to
    "Hazardous"). *)
Lemma classifiers_agree {num : Type} {N : JsNumber num} (index : num) :
  getAQICategory index = AQIGauge.label (AQIGauge.getAQILevel index)
  /\ getAQICategory index = Alerts.getAQILabel index.
Proof.
  unfold getAQICategory, AQIGauge.getAQILevel, Alerts.getAQILabel.
  repeat match goal with |- context [if ?b then _ else _] => destruct b end;
    split; reflexivity.
Qed.

Lemma leb_exact_false (x y : Q) : leb x y = false -> y < x.
Proof.
  cbn. intros H. apply Qnot_le_lt. intros Hle.
  apply Qle_bool_iff in Hle. congruence.
Qed.

(** C9: for every index, [getAQICategory] of the map, the label of
    [getAQILevel] of the gauge and [getAQILabel] of the alerts page are
    the same string, and it is the category the table gives. *)
Theorem classification_matches_table (index : Q) :
  getAQICategory index = AQIGauge.label (AQIGauge.getAQILevel index)
  /\ getAQICategory index = Alerts.getAQILabel index
  /\ Spec.table index (getAQICategory index).
Proof.
  destruct (classifiers_agree index) as [Hg Ha].
  split; [exact Hg|]. split; [exact Ha|].
  unfold Spec.table, getAQICategory.
  change (lit (num := Q) 50 0) with 50.
  change (lit (num := Q) 100 0) with 100.
  change (lit (num := Q) 150 0) with 150.
  change (lit (num := Q) 200 0) with 200.
  change (lit (num := Q) 300 0) with 300.
  destruct (leb index 50) eqn:H50.
  { left. split; [now apply Qle_bool_iff | reflexivity]. }
  apply leb_exact_false in H50. right.
  destruct (leb index 100) eqn:H100.
  { left. split; [split; [exact H50 | now apply Qle_bool_iff] | reflexivity]. }
  apply leb_exact_false in H100. right.
  destruct (leb index 150) eqn:H150.
  { left. split; [split; [exact H100 | now apply Qle_bool_iff] | reflexivity]. }
  apply leb_exact_false in H150. right.
  destruct (leb index 200) eqn:H200.
  { left. split; [split; [exact H150 | now apply Qle_bool_iff] | reflexivity]. }
  apply leb_exact_false in H200. right.
  destruct (leb index 300) eqn:H300.
  { left. split; [split; [exact H200 | now apply Qle_bool_iff] | reflexivity]. }
  apply leb_exact_false in H300. right.
  split; [exact H300 | reflexivity].
Qed.

End ClassificationClaims.

(** ** The refresh loop, over any interpretation of [number] *)

Section RefreshLoop.

Import AQIMap.
Context {num : Type} {N : JsNumber num}.
Local Open Scope Z_scope.

Ltac break_step :=
  repeat match goal with
    | H : (if ?b then _ else _) = Some _ |- _ => destruct b eqn:?
    | H : match ?n with O => _ | S _ => _ end = Some _ |- _ =>
        destruct n eqn:?
    | H : None = Some _ |- _ => discriminate H
    | H : Some _ = Some _ |- _ => injection H as <-
    end.

Lemma consistent_mount (initialLoading : bool) :
  consistent (mount (num := num) initialLoading).
Proof.
  unfold consistent, mount. cbn. repeat split; lia.
Qed.

Lemma consistent_step (s s' : state num) (e : event num) :
  consistent s -> step s e = Some s' -> consistent s'.
Proof.
  unfold consistent. intros (Ht & Hc & Hr) Hs.
  destruct e; cbn [step] in Hs; break_step.
  - unfold countdownTimer_callback.
    destruct (countdown s <=? 1) eqn:E; cbn.
    + repeat split; auto; try congruence; lia.
    + apply Z.leb_gt in E. repeat split; auto; try congruence; lia.
  - unfold toggleAutoRefresh, autoRefresh_effect, autoRefresh_cleanup.
    destruct (autoRefreshEnabled s); cbn; repeat split; auto; try congruence; lia.
  - cbn. repeat split; auto; try congruence; lia.
  - cbn. repeat split; auto; try congruence; lia.
  - cbn. repeat split; auto; try congruence; lia.
Qed.

Lemma reachable_consistent (s : state num) : reachable s -> consistent s.
Proof.
  induction 1 as [b | s e s' _ IH Hs].
  - apply consistent_mount.
  - exact (consistent_step s s' e IH Hs).
Qed.


(** The countdown after one event. *)
Lemma countdown_after_step (s s' : state num) (e : event num) :
  step s e = Some s' ->
  countdown s' =
    match e with
    | Tick => if countdown s <=? 1 then 300 else countdown s - 1
    | ToggleAutoRefresh | RefreshNow => countdown s
    | FetchResolved _ _ | FetchRejected _ => 300
    end.
Proof.
  intros Hs. destruct e; cbn [step] in Hs; break_step; trivial.
  - unfold countdownTimer_callback. now destruct (countdown s <=? 1).
  - unfold toggleAutoRefresh, autoRefresh_effect, autoRefresh_cleanup.
    cbn. now destruct (negb (autoRefreshEnabled s)).
Qed.

Lemma tick_enabled_iff (s : state num) :
  consistent s -> (step s Tick = None <-> Spec.Disabled s).
Proof.
  intros (Ht & _). unfold Spec.Disabled. cbn [step]. rewrite <- Ht.
  destruct (countdownTimer s); split; congruence.
Qed.

(** C6, as the code has it: in every reachable state, the only event
    that lowers the countdown is a tick of the interval timer, which
    exists exactly while auto-refresh is enabled and lowers the countdown
    by one (from any value above 1) whether or not a fetch is in flight;
    while Disabled there is no tick and nothing lowers the countdown. *)
Theorem countdown_decrements_while_enabled
    (s s' : state num) (e : event num) :
  reachable s ->
  step s e = Some s' ->
  (Spec.decrements s s' ->
     e = Tick /\ autoRefreshEnabled s = true
     /\ countdown s' = countdown s - 1)
  /\ (Spec.Disabled s -> ~ Spec.decrements s s')
  /\ (e = Tick -> 1 < countdown s -> countdown s' = countdown s - 1)
  /\ (step s Tick = None <-> Spec.Disabled s).
Proof.
  intros Hr Hs. pose proof (reachable_consistent s Hr) as Hc.
  pose proof (countdown_after_step s s' e Hs) as Hcd.
  destruct Hc as (Ht & Hb & Hf).
  assert (Hdec : Spec.decrements s s' ->
            e = Tick /\ autoRefreshEnabled s = true
            /\ countdown s' = countdown s - 1).
  { unfold Spec.decrements. intros Hlt.
    destruct e; try lia.
    destruct (countdown s <=? 1) eqn:E; [lia|].
    split; [reflexivity|]. split; [|exact Hcd].
    cbn [step] in Hs. rewrite <- Ht.
    destruct (countdownTimer s); [reflexivity | discriminate]. }
  split; [exact Hdec|]. split; [|split].
  - unfold Spec.Disabled. intros Hd Hlt.
    destruct (Hdec Hlt) as (_ & He & _). congruence.
  - intros -> Hgt. rewrite Hcd.
    destruct (countdown s <=? 1) eqn:E; [apply Z.leb_le in E; lia | trivial].
  - apply tick_enabled_iff. now repeat split.
Qed.



End RefreshLoop.

(** ** The refresh loop on concrete runs *)

Section RefreshLoopRuns.

Import AQIMap.
Local Open Scope Z_scope.

Lemma loaded_reachable : reachable (Scenario.loaded (num := Q)).
Proof.
  apply (reachable_step (mount true)
           (FetchResolved Scenario.two_stations "t0")).
  - apply reachable_mount.
  - reflexivity.
Qed.

(** C6 fails as stated: right after mounting, the first fetch is in
    flight ([isRefreshing] is true, the state is Refreshing and not
    Idle), and a tick of the timer lowers the countdown from 300 to
    299. *)
Lemma countdown_decrements_while_refreshing :
  reachable (mount (num := Q) true)
  /\ isRefreshing (mount (num := Q) true) = true
  /\ Spec.Refreshing (mount (num := Q) true)
  /\ ~ Spec.Idle (mount (num := Q) true)
  /\ exists s',
       step (mount (num := Q) true) Tick = Some s'
       /\ Spec.decrements (mount (num := Q) true) s'
       /\ countdown s' = 299.
Proof.
  split; [apply reachable_mount|]. split; [reflexivity|].
  split; [unfold Spec.Refreshing; cbn; lia|].
  split; [intros [_ H]; discriminate H|].
  eexists. split; [reflexivity|]. split; [|reflexivity].
  unfold Spec.decrements. cbn. lia.
Qed.

Lemma countdown_decrements_while_enabled_witness :
  (Spec.decrements (mount (num := Q) true)
     (countdownTimer_callback (mount true)) ->
     Tick (num := Q) = Tick
     /\ autoRefreshEnabled (mount (num := Q) true) = true
     /\ countdown (countdownTimer_callback (mount (num := Q) true))
        = countdown (mount (num := Q) true) - 1)
  /\ (Spec.Disabled (mount (num := Q) true) ->
        ~ Spec.decrements (mount (num := Q) true)
            (countdownTimer_callback (mount true)))
  /\ (Tick (num := Q) = Tick -> 1 < countdown (mount (num := Q) true) ->
        countdown (countdownTimer_callback (mount (num := Q) true))
        = countdown (mount (num := Q) true) - 1)
  /\ (step (mount (num := Q) true) Tick = None
      <-> Spec.Disabled (mount (num := Q) true)).
Proof.
  apply (countdown_decrements_while_enabled (mount (num := Q) true)
           (countdownTimer_callback (mount true)) Tick).
  - apply reachable_mount.
  - reflexivity.
Defined.





End RefreshLoopRuns.

(** ** Fetch failure *)

Section FetchFailure.

Import AQIMap.
Local Open Scope Q_scope.

Lemma estimateAQI_fallback_sector_56_binary64 :
  estimateAQI (num := float) fallback (lit 284089 4) (lit 770926 4)
  = Some (lit 175 0).
Proof. vm_compute. reflexivity. Qed.

(** C8: when a fetch fails, the location set becomes the four fallback
    locations (Sector 56: 175, DLF Cyber City: 160, Golf Course Road:
    155, MG Road: 168), the error message is set, the "last updated"
    label ends in " (fallback data)", the countdown is back at 300 and
    [isRefreshing] is false; the estimator then works on a non-empty set,
    has a value at every point, and yields 175 at the coordinates of
    Sector 56. *)
Theorem fetch_failure_substitutes_fallback
    (s s' : state Q) (now : string) :
  step s (FetchRejected now) = Some s' ->
  locations s' = fallback
  /\ map (fun loc => (location loc, aqi loc)) (locations s')
     = [ ("Sector 56"%string, 175); ("DLF Cyber City"%string, 160);
         ("Golf Course Road"%string, 155); ("MG Road"%string, 168) ]
  /\ error s' = Some "Failed to load map data"%string
  /\ lastUpdated s' = (now ++ " (fallback data)")%string
  /\ countdown s' = 300%Z
  /\ isRefreshing s' = false
  /\ locations s' <> []
  /\ (forall lat lng, exists v, estimateAQI (locations s') lat lng = Some v)
  /\ estimateAQI (locations s') (lit 284089 4) (lit 770926 4)
     = Some (lit 175 0).
Proof.
  intros Hs. cbn [step] in Hs.
  destruct (inFlight s) as [|n]; [discriminate Hs|]. injection Hs as <-.
  cbn [getMapData_rejected getMapData_finally setCountdown setIsRefreshing
       setLoading setLastUpdated setLocations setError setInFlight
       locations error lastUpdated countdown isRefreshing].
  split; [reflexivity|]. split; [reflexivity|]. split; [reflexivity|].
  split; [reflexivity|]. split; [reflexivity|]. split; [reflexivity|].
  split; [discriminate|]. split; [intros; apply estimateAQI_total|].
  vm_compute. reflexivity.
Qed.

Lemma fetch_failure_substitutes_fallback_witness :
  locations (Scenario.failed (num := Q)) = fallback
  /\ map (fun loc => (location loc, aqi loc))
       (locations (Scenario.failed (num := Q)))
     = [ ("Sector 56"%string, 175); ("DLF Cyber City"%string, 160);
         ("Golf Course Road"%string, 155); ("MG Road"%string, 168) ]
  /\ error (Scenario.failed (num := Q))
     = Some "Failed to load map data"%string
  /\ lastUpdated (Scenario.failed (num := Q))
     = ("t0" ++ " (fallback data)")%string
  /\ countdown (Scenario.failed (num := Q)) = 300%Z
  /\ isRefreshing (Scenario.failed (num := Q)) = false
  /\ locations (Scenario.failed (num := Q)) <> []
  /\ (forall lat lng,
         exists v,
           estimateAQI (locations (Scenario.failed (num := Q))) lat lng
           = Some v)
  /\ estimateAQI (locations (Scenario.failed (num := Q)))
       (lit 284089 4) (lit 770926 4)
     = Some (lit 175 0).
Proof.
  apply (fetch_failure_substitutes_fallback (mount true)
           Scenario.failed "t0").
  reflexivity.
Defined.

End FetchFailure.

(** ** The binary64 interpretation on concrete values *)

Section Binary64Checks.

Import AQIMap.

(** [lit] agrees with the correctly rounded value of the decimal literals
    of the source and of the scenarios (written here in hexadecimal, which
    is read exactly). *)
Lemma binary64_literals :
  lit (num := float) 5 3 = 0x1.47ae147ae147bp-8%float
  /\ lit (num := float) 284089 4 = 0x1.c68adab9f559bp+4%float
  /\ lit (num := float) 2840 2 = 0x1.c666666666666p+4%float
  /\ lit (num := float) 2841 2 = 0x1.c68f5c28f5c29p+4%float
  /\ lit (num := float) 2842 2 = 0x1.c6b851eb851ecp+4%float
  /\ lit (num := float) 7701 2 = 0x1.340a3d70a3d71p+6%float
  /\ lit (num := float) 7702 2 = 0x1.34147ae147ae1p+6%float
  /\ lit (num := float) 300 0 = 300%float.
Proof. vm_compute. repeat split. Qed.

(** [Math.round] on the values where a floor(x + 0.5) computed in floating
    point would go wrong, and on ties. *)
Lemma binary64_round :
  Math_round 2.5%float = 3%float
  /\ Math_round (-2.5)%float = (-2)%float
  /\ Math_round 0x1.fffffffffffffp-2%float = 0%float
  /\ Math_round (-0.5)%float = (-0)%float
  /\ Math_round 175.5%float = 176%float
  /\ Math_round 0x1.0000000000001p+52%float = 0x1.0000000000001p+52%float
  /\ Math_round infinity = infinity.
Proof. vm_compute. repeat split. Qed.

(** A JavaScript quotient always has a value, so in binary64
    [estimateAQI] returns for every input (possibly NaN, for coordinates
    that are not finite or overflow the squared distance). *)
Lemma forEach_binary64_total (lat lng : float) (locs : list (Location float)) :
  forall acc, exists sums, forEach lat lng locs acc = Some sums.
Proof.
  induction locs as [|l locs IH]; intros acc; cbn [forEach].
  - now exists acc.
  - unfold accumulate. destruct acc as [w a].
    destruct (coordinates l) as [locLat locLng].
    cbn [div Binary64.number].
    match goal with
    | |- context [if ?b then _ else _] => destruct b
    end; cbn [bind]; apply IH.
Qed.

Lemma estimateAQI_binary64_total (locs : list (Location float))
    (lat lng : float) :
  exists v, estimateAQI locs lat lng = Some v.
Proof.
  unfold estimateAQI.
  destruct (List.length locs =? 0)%nat; [eexists; reflexivity|].
  destruct (find (nearby lat lng) locs); [eexists; reflexivity|].
  destruct (forEach_binary64_total lat lng locs (lit 0 0, lit 0 0))
    as [[w a] ->].
  cbn [bind div Binary64.number]. eexists; reflexivity.
Qed.

End Binary64Checks.

(** * Further properties *)

(** ** The refresh loop: countdown label, expiry and display invariants *)

Section RefreshLoopMore.

Import AQIMap.
Context {num : Type} {N : JsNumber num}.
Local Open Scope Z_scope.

Lemma formatCountdown_1_300 :
  forallb
    (fun n =>
       let c := Z.of_nat n in
       (String.length (formatCountdown c) =? 4)%nat
       && match formatCountdown c with
          | String m (String sep (String a (String b EmptyString))) =>
              Ascii.eqb sep ":"%char
              && ((Z.of_nat (Ascii.nat_of_ascii m) - 48) * 60
                  + (Z.of_nat (Ascii.nat_of_ascii a) - 48) * 10
                  + (Z.of_nat (Ascii.nat_of_ascii b) - 48) =? c)
          | _ => false
          end)
    (seq 1 300) = true.
Proof. vm_compute. reflexivity. Qed.

Lemma formatCountdown_decodes (c : Z) :
  1 <= c <= 300 ->
  exists m a b,
    formatCountdown c = String m (String ":"%char (String a (String b EmptyString)))
    /\ (Z.of_nat (Ascii.nat_of_ascii m) - 48) * 60
       + (Z.of_nat (Ascii.nat_of_ascii a) - 48) * 10
       + (Z.of_nat (Ascii.nat_of_ascii b) - 48) = c.
Proof.
  intros Hc. pose proof formatCountdown_1_300 as H.
  rewrite forallb_forall in H. specialize (H (Z.to_nat c)).
  rewrite Z2Nat.id in H by lia.
  assert (Hin : In (Z.to_nat c) (seq 1 300)) by (apply in_seq; lia).
  specialize (H Hin). cbv zeta in H. apply andb_true_iff in H as [_ H].
  destruct (formatCountdown c) as [|m [|sep [|a [|b [|? ?]]]]]; try discriminate H.
  apply andb_true_iff in H as [Hsep Hval].
  apply Ascii.eqb_eq in Hsep. subst sep. apply Z.eqb_eq in Hval.
  now exists m, a, b.
Qed.

(** X1: in every reachable state the countdown label has the four
    characters m:ss, and two reachable states that show the same label have
    the same countdown. *)
Theorem formatCountdown_identifies_countdown (s1 s2 : state num) :
  reachable s1 ->
  reachable s2 ->
  (exists m a b,
      formatCountdown (countdown s1)
      = String m (String ":"%char (String a (String b EmptyString))))
  /\ (formatCountdown (countdown s1) = formatCountdown (countdown s2) ->
      countdown s1 = countdown s2).
Proof.
  intros H1 H2.
  destruct (reachable_consistent s1 H1) as (_ & Hc1 & _).
  destruct (reachable_consistent s2 H2) as (_ & Hc2 & _).
  destruct (formatCountdown_decodes _ Hc1) as (m1 & a1 & b1 & E1 & V1).
  destruct (formatCountdown_decodes _ Hc2) as (m2 & a2 & b2 & E2 & V2).
  split; [now exists m1, a1, b1|].
  rewrite E1, E2. intros [= -> -> ->]. lia.
Qed.

Lemma setCountdown_self (s : state num) : setCountdown (countdown s) s = s.
Proof. now destruct s. Qed.

Lemma ticks_count_down (k : nat) : forall s : state num,
  countdownTimer s = true ->
  Z.of_nat k < countdown s ->
  run s (repeat Tick k) = Some (setCountdown (countdown s - Z.of_nat k) s).
Proof.
  induction k as [|k IH]; intros s Ht Hk.
  - cbn [repeat run]. rewrite Z.sub_0_r. now rewrite setCountdown_self.
  - cbn [repeat run step]. rewrite Ht. cbn [bind].
    unfold countdownTimer_callback.
    destruct (countdown s <=? 1) eqn:E; [apply Z.leb_le in E; lia|].
    rewrite IH; [|exact Ht|cbn; lia].
    destruct s; cbn in *. f_equal. unfold setCountdown; cbn. f_equal. lia.
Qed.

(** X2: with the timer registered and the countdown at c (at least 1),
    fewer than c ticks only lower the countdown; the c-th tick calls
    [getMapData] once and puts the countdown back to 300, and nothing else
    of the state changes. *)
Theorem countdown_expiry_starts_one_fetch (s : state num) (k : nat) :
  countdownTimer s = true ->
  1 <= countdown s ->
  Z.of_nat k < countdown s ->
  run s (repeat Tick k) = Some (setCountdown (countdown s - Z.of_nat k) s)
  /\ run s (repeat Tick (Z.to_nat (countdown s)))
     = Some (setCountdown 300 (getMapData_call s)).
Proof.
  intros Ht Hc Hk. split; [now apply ticks_count_down|].
  replace (Z.to_nat (countdown s)) with (Z.to_nat (countdown s - 1) + 1)%nat
    by lia.
  rewrite repeat_app.
  assert (Hrun : forall (es1 es2 : list (event num)) (a b : state num),
             run a es1 = Some b -> run a (es1 ++ es2) = run b es2).
  { induction es1 as [|e es1 IH]; intros es2 a b H; cbn [run app] in *.
    - now injection H as ->.
    - destruct (step a e) as [a'|]; [|discriminate]. cbn [bind] in *.
      now apply IH. }
  rewrite (Hrun _ _ _ _ (ticks_count_down (Z.to_nat (countdown s - 1)) s Ht
                           ltac:(lia))).
  cbn [repeat run step]. destruct s. cbn in *. rewrite Ht. cbn.
  unfold countdownTimer_callback. cbn.
  replace (countdown0 - Z.of_nat (Z.to_nat (countdown0 - 1))) with 1 by lia.
  reflexivity.
Qed.

Lemma coherent_mount (initialLoading : bool) :
  coherent (mount (num := num) initialLoading).
Proof.
  unfold coherent, mount. cbn. split.
  - intros _. repeat split. lia.
  - intros H. now contradiction H.
Qed.

Lemma coherent_step (s s' : state num) (e : event num) :
  coherent s -> step s e = Some s' -> coherent s'.
Proof.
  unfold coherent. intros (Hl & He) Hs.
  destruct e; cbn [step] in Hs;
    repeat match goal with
      | H : (if ?b then _ else _) = Some _ |- _ => destruct b eqn:?
      | H : match ?n with O => _ | S _ => _ end = Some _ |- _ =>
          destruct n eqn:?
      | H : None = Some _ |- _ => discriminate H
      | H : Some _ = Some _ |- _ => injection H as <-
      end.
  - unfold countdownTimer_callback.
    destruct (countdown s <=? 1); cbn; split; trivial.
    intros Hld. destruct (Hl Hld) as (H1 & H2 & H3 & H4).
    split; [exact H1|]. split; [exact H2|]. split; [exact H3|]. lia.
  - unfold toggleAutoRefresh, autoRefresh_effect, autoRefresh_cleanup.
    destruct (autoRefreshEnabled s); cbn;
      (split; [intros; congruence | assumption]).
  - apply orb_false_iff in Heqb as [Hld _]. cbn. split; [|assumption].
    intros Hld'. congruence.
  - cbn. split; [discriminate|]. intros H. now contradiction H.
  - cbn. split; [discriminate|]. intros _. split; [reflexivity|].
    now exists now.
Qed.

Lemma reachable_coherent (s : state num) : reachable s -> coherent s.
Proof.
  induction 1 as [b | s e s' _ IH Hs].
  - apply coherent_mount.
  - exact (coherent_step s s' e IH Hs).
Qed.

(** X3: what every reachable state satisfies.  The timer is registered
    exactly while auto-refresh is on; the countdown lies between 1 and
    300; [isRefreshing] is true only while a request is outstanding; while
    the loading skeleton is shown no data, error or label has been set and
    a request is outstanding; and while the error banner is shown the
    locations are the fallback list and the label ends in
    " (fallback data)". *)
Theorem reachable_display_invariants (s : state num) :
  reachable s ->
  countdownTimer s = autoRefreshEnabled s
  /\ 1 <= countdown s <= 300
  /\ (isRefreshing s = true -> (0 < inFlight s)%nat)
  /\ (loading s = true ->
        locations s = [] /\ error s = None /\ lastUpdated s = ""%string
        /\ (0 < inFlight s)%nat)
  /\ (error s <> None ->
        locations s = fallback
        /\ exists now, lastUpdated s = (now ++ " (fallback data)")%string).
Proof.
  intros Hr. destruct (reachable_consistent s Hr) as (Ht & Hc & Hf).
  split; [exact Ht|]. split; [exact Hc|]. split; [exact Hf|].
  exact (reachable_coherent s Hr).
Qed.

End RefreshLoopMore.

Section RefreshLoopMoreRuns.

Import AQIMap.
Local Open Scope Z_scope.

Lemma failed_reachable : reachable (Scenario.failed (num := Q)).
Proof.
  apply (reachable_step (mount true) (FetchRejected "t0")).
  - apply reachable_mount.
  - reflexivity.
Qed.

Lemma formatCountdown_identifies_countdown_witness :
  (exists m a b,
      formatCountdown (countdown (mount (num := Q) true))
      = String m (String ":"%char (String a (String b EmptyString))))
  /\ (formatCountdown (countdown (mount (num := Q) true))
      = formatCountdown (countdown (Scenario.loaded (num := Q))) ->
      countdown (mount (num := Q) true)
      = countdown (Scenario.loaded (num := Q))).
Proof.
  apply (formatCountdown_identifies_countdown
           (mount (num := Q) true) (Scenario.loaded (num := Q))).
  - apply reachable_mount.
  - exact loaded_reachable.
Defined.

Lemma countdown_expiry_starts_one_fetch_witness :
  run (Scenario.loaded (num := Q)) (repeat Tick 2)
  = Some (setCountdown (countdown (Scenario.loaded (num := Q)) - Z.of_nat 2)
            Scenario.loaded)
  /\ run (Scenario.loaded (num := Q))
       (repeat Tick (Z.to_nat (countdown (Scenario.loaded (num := Q)))))
     = Some (setCountdown 300 (getMapData_call Scenario.loaded)).
Proof.
  apply (countdown_expiry_starts_one_fetch (Scenario.loaded (num := Q)) 2).
  - reflexivity.
  - discriminate.
  - reflexivity.
Defined.

Lemma reachable_display_invariants_witness :
  countdownTimer (Scenario.failed (num := Q))
  = autoRefreshEnabled (Scenario.failed (num := Q))
  /\ 1 <= countdown (Scenario.failed (num := Q)) <= 300
  /\ (isRefreshing (Scenario.failed (num := Q)) = true ->
      (0 < inFlight (Scenario.failed (num := Q)))%nat)
  /\ (loading (Scenario.failed (num := Q)) = true ->
        locations (Scenario.failed (num := Q)) = []
        /\ error (Scenario.failed (num := Q)) = None
        /\ lastUpdated (Scenario.failed (num := Q)) = ""%string
        /\ (0 < inFlight (Scenario.failed (num := Q)))%nat)
  /\ (error (Scenario.failed (num := Q)) <> None ->
        locations (Scenario.failed (num := Q)) = fallback
        /\ exists now,
             lastUpdated (Scenario.failed (num := Q))
             = (now ++ " (fallback data)")%string).
Proof.
  apply (reachable_display_invariants (Scenario.failed (num := Q))).
  exact failed_reachable.
Defined.

End RefreshLoopMoreRuns.

(** ** The estimator: range and order *)

Section EstimatorMore.

Import AQIMap.
Local Open Scope Q_scope.

Lemma weighted_sum_bounds (lat lng lo hi : Q) (locs : list (Location Q)) :
  (forall loc, In loc locs -> lo <= aqi loc <= hi) ->
  lo * Spec.sum (Spec.weight lat lng) locs
  <= Spec.sum (fun loc => Spec.weight lat lng loc * aqi loc) locs
  /\ Spec.sum (fun loc => Spec.weight lat lng loc * aqi loc) locs
     <= hi * Spec.sum (Spec.weight lat lng) locs.
Proof.
  induction locs as [|l locs IH]; intros H; cbn [Spec.sum].
  - split; lra.
  - destruct IH as [IHlo IHhi]; [intros x Hx; apply H; now right|].
    destruct (H l (or_introl eq_refl)) as [Hlo Hhi].
    pose proof (weight_pos lat lng l) as Hw.
    split; nra.
Qed.

Lemma idw_bounds (lat lng lo hi : Q) (locs : list (Location Q)) :
  locs <> [] ->
  (forall loc, In loc locs -> lo <= aqi loc <= hi) ->
  lo <= Spec.idw locs lat lng <= hi.
Proof.
  intros Hne H. unfold Spec.idw.
  pose proof (sum_weight_pos lat lng locs Hne) as Hpos.
  destruct (weighted_sum_bounds lat lng lo hi locs H) as [Hlo Hhi].
  split.
  - now apply Qle_shift_div_l.
  - now apply Qle_shift_div_r.
Qed.

Lemma round_between (lo hi : Z) (x : Q) :
  inject_Z lo <= x <= inject_Z hi ->
  (lo <= Qfloor (x + (1 # 2)) <= hi)%Z.
Proof.
  intros [Hlo Hhi]. split.
  - pose proof (Qfloor_resp_le (inject_Z lo + (1 # 2)) (x + (1 # 2))) as H.
    rewrite Qfloor_integer_half in H. apply H. lra.
  - pose proof (Qfloor_resp_le (x + (1 # 2)) (inject_Z hi + (1 # 2))) as H.
    rewrite Qfloor_integer_half in H. apply H. lra.
Qed.

(** X4: the estimate never leaves the range of the measured indices: if
    every location of a non-empty set has its index between the integers
    lo and hi, so has the estimate, at every query point. *)
Theorem estimateAQI_within_measured_range
    (locs : list (Location Q)) (lat lng : Q) (lo hi : Z) :
  locs <> [] ->
  (forall loc, In loc locs -> inject_Z lo <= aqi loc <= inject_Z hi) ->
  exists v,
    estimateAQI locs lat lng = Some v
    /\ inject_Z lo <= v <= inject_Z hi.
Proof.
  intros Hne H.
  destruct (find (nearby lat lng) locs) as [n|] eqn:Hf.
  - exists (aqi n). split.
    + unfold estimateAQI. rewrite Hf. now destruct locs.
    + apply H. now apply (find_some _ _ Hf).
  - rewrite (estimateAQI_idw lat lng locs Hne Hf). eexists. split; [reflexivity|].
    pose proof (round_between lo hi _ (idw_bounds lat lng _ _ locs Hne H))
      as [Hlo Hhi].
    split; rewrite <- Zle_Qle; assumption.
Qed.

Lemma estimateAQI_within_measured_range_witness :
  exists v,
    estimateAQI (num := Q) Scenario.two_stations (lit 2841 2) (lit 7701 2)
    = Some v
    /\ inject_Z 100 <= v <= inject_Z 200.
Proof.
  apply (estimateAQI_within_measured_range
           Scenario.two_stations (lit 2841 2) (lit 7701 2) 100 200).
  - discriminate.
  - intros loc [<-|[<-|[]]]; split; vm_compute; discriminate.
Defined.

End EstimatorMore.

(** ** Colours, categories and the legend *)

Section ColoursAnyNumber.

Import AQIMap.
Context {num : Type} {N : JsNumber num}.

Ltac split_bands :=
  repeat match goal with
    | |- context [if ?b then _ else _] => destruct b
    end.

(** X6: the colour of a marker and the category shown in its popup are
    always those of one and the same row of the legend, and two indices
    get the same colour exactly when they get the same category. *)
Theorem marker_colour_and_category_share_legend_row (index other : num) :
  (exists i range,
      nth_error AQILegend.rows i
      = Some (getAQIColor index,
              (getAQICategory index ++ " (" ++ range ++ ")")%string))
  /\ (getAQIColor index = getAQIColor other
      <-> getAQICategory index = getAQICategory other).
Proof.
  split.
  - unfold getAQIColor, getAQICategory.
    destruct (leb index (lit 50 0));
      [now exists 0%nat, "0-50"%string|].
    destruct (leb index (lit 100 0));
      [now exists 1%nat, "51-100"%string|].
    destruct (leb index (lit 150 0));
      [now exists 2%nat, "101-150"%string|].
    destruct (leb index (lit 200 0));
      [now exists 3%nat, "151-200"%string|].
    destruct (leb index (lit 300 0));
      [now exists 4%nat, "201-300"%string|].
    now exists 5%nat, "300+"%string.
  - unfold getAQIColor, getAQICategory.
    split_bands; split; intros H; solve [reflexivity | discriminate H].
Qed.

End ColoursAnyNumber.

Section ColoursExact.

Import AQIMap.
Local Open Scope Q_scope.

Lemma leb_exact_true (x y : Q) : leb x y = true <-> x <= y.
Proof. cbn. apply Qle_bool_iff. Qed.

(** If every threshold above [h] is above [v], the colour of [v] stands
    no later in the legend than the colour of [h]. *)
Lemma colour_rank_le (v h : Q) :
  (forall t : Z, h <= inject_Z t -> v <= inject_Z t) ->
  exists i j,
    (i <= j)%nat
    /\ nth_error (map fst AQILegend.rows) i = Some (getAQIColor v)
    /\ nth_error (map fst AQILegend.rows) j = Some (getAQIColor h).
Proof.
  intros H.
  assert (Ht : forall t : Z,
             leb h (lit (num := Q) t 0) = true ->
             leb v (lit (num := Q) t 0) = true).
  { intros t Hh. apply leb_exact_true. apply leb_exact_true in Hh.
    change (lit (num := Q) t 0) with (inject_Z t) in *. now apply H. }
  pose proof (Ht 50%Z) as H50. pose proof (Ht 100%Z) as H100.
  pose proof (Ht 150%Z) as H150. pose proof (Ht 200%Z) as H200.
  pose proof (Ht 300%Z) as H300. clear Ht H.
  unfold getAQIColor.
  destruct (leb h (lit 50 0)); [rewrite H50 by reflexivity|];
  [now exists 0%nat, 0%nat|].
  destruct (leb h (lit 100 0)); [rewrite H100 by reflexivity|].
  { destruct (leb v (lit 50 0));
      [exists 0%nat, 1%nat | exists 1%nat, 1%nat]; repeat split; lia. }
  destruct (leb h (lit 150 0)); [rewrite H150 by reflexivity|].
  { destruct (leb v (lit 50 0)); [exists 0%nat, 2%nat; repeat split; lia|].
    destruct (leb v (lit 100 0));
      [exists 1%nat, 2%nat | exists 2%nat, 2%nat]; repeat split; lia. }
  destruct (leb h (lit 200 0)); [rewrite H200 by reflexivity|].
  { destruct (leb v (lit 50 0)); [exists 0%nat, 3%nat; repeat split; lia|].
    destruct (leb v (lit 100 0)); [exists 1%nat, 3%nat; repeat split; lia|].
    destruct (leb v (lit 150 0));
      [exists 2%nat, 3%nat | exists 3%nat, 3%nat]; repeat split; lia. }
  destruct (leb h (lit 300 0)); [rewrite H300 by reflexivity|].
  { destruct (leb v (lit 50 0)); [exists 0%nat, 4%nat; repeat split; lia|].
    destruct (leb v (lit 100 0)); [exists 1%nat, 4%nat; repeat split; lia|].
    destruct (leb v (lit 150 0)); [exists 2%nat, 4%nat; repeat split; lia|].
    destruct (leb v (lit 200 0));
      [exists 3%nat, 4%nat | exists 4%nat, 4%nat]; repeat split; lia. }
  destruct (leb v (lit 50 0)); [exists 0%nat, 5%nat; repeat split; lia|].
  destruct (leb v (lit 100 0)); [exists 1%nat, 5%nat; repeat split; lia|].
  destruct (leb v (lit 150 0)); [exists 2%nat, 5%nat; repeat split; lia|].
  destruct (leb v (lit 200 0)); [exists 3%nat, 5%nat; repeat split; lia|].
  destruct (leb v (lit 300 0));
    [exists 4%nat, 5%nat | exists 5%nat, 5%nat]; repeat split; lia.
Qed.

(** X7: the classification is monotone: of two indices, the higher one is
    never drawn in the colour of an earlier row of the legend. *)
Theorem getAQIColor_monotone (x y : Q) :
  x <= y ->
  exists i j,
    (i <= j)%nat
    /\ nth_error (map fst AQILegend.rows) i = Some (getAQIColor x)
    /\ nth_error (map fst AQILegend.rows) j = Some (getAQIColor y).
Proof.
  intros Hxy. apply colour_rank_le. intros t Ht. lra.
Qed.

Lemma getAQIColor_monotone_witness :
  exists i j,
    (i <= j)%nat
    /\ nth_error (map fst AQILegend.rows) i
       = Some (getAQIColor (num := Q) (lit 1503 1))
    /\ nth_error (map fst AQILegend.rows) j
       = Some (getAQIColor (num := Q) (lit 175 0)).
Proof.
  apply (getAQIColor_monotone (lit 1503 1) (lit 175 0)).
  vm_compute. discriminate.
Defined.

Lemma weighted_sum_upper (lat lng hi : Q) (locs : list (Location Q)) :
  (forall loc, In loc locs -> aqi loc <= hi) ->
  Spec.sum (fun loc => Spec.weight lat lng loc * aqi loc) locs
  <= hi * Spec.sum (Spec.weight lat lng) locs.
Proof.
  induction locs as [|l locs IH]; intros H; cbn [Spec.sum].
  - lra.
  - assert (IH' := IH (fun x Hx => H x (or_intror Hx))).
    pose proof (H l (or_introl eq_refl)) as Hhi.
    pose proof (weight_pos lat lng l) as Hw. nra.
Qed.

(** X8: a click on the map is never shown worse than the worst station:
    [handleMapClick] always yields a location at the clicked point, and the
    colour of its estimate stands no later in the legend than the colour
    of any index that bounds the indices of the station set from above. *)
Theorem clicked_marker_no_worse_than_worst_station
    (toFixed : Q -> nat -> string)
    (locs : list (Location Q)) (lat lng worst : Q) :
  locs <> [] ->
  (forall loc, In loc locs -> aqi loc <= worst) ->
  exists clicked i j,
    handleMapClick toFixed locs lat lng = Some clicked
    /\ coordinates clicked = (lat, lng)
    /\ estimateAQI locs lat lng = Some (aqi clicked)
    /\ (i <= j)%nat
    /\ nth_error (map fst AQILegend.rows) i
       = Some (getAQIColor (aqi clicked))
    /\ nth_error (map fst AQILegend.rows) j = Some (getAQIColor worst).
Proof.
  intros Hne H. unfold handleMapClick.
  assert (Hv : exists v,
             estimateAQI locs lat lng = Some v
             /\ forall t : Z, worst <= inject_Z t -> v <= inject_Z t).
  { destruct (find (nearby lat lng) locs) as [n|] eqn:Hf.
    - exists (aqi n). split.
      + unfold estimateAQI. rewrite Hf. now destruct locs.
      + intros t Ht. pose proof (H n (proj1 (find_some _ _ Hf))). lra.
    - rewrite (estimateAQI_idw lat lng locs Hne Hf). eexists.
      split; [reflexivity|]. intros t Ht. rewrite <- Zle_Qle.
      pose proof (Qfloor_resp_le (Spec.idw locs lat lng + (1 # 2))
                    (inject_Z t + (1 # 2))) as Hfl.
      rewrite Qfloor_integer_half in Hfl. apply Hfl.
      assert (Spec.idw locs lat lng <= worst); [|lra].
      unfold Spec.idw. apply Qle_shift_div_r.
      + now apply sum_weight_pos.
      + now apply weighted_sum_upper. }
  destruct Hv as (v & Hest & Hbound). rewrite Hest. cbn [bind].
  destruct (colour_rank_le v worst Hbound) as (i & j & Hij & Hi & Hj).
  eexists. exists i, j. split; [reflexivity|]. cbn [coordinates aqi].
  now repeat split.
Qed.

End ColoursExact.

Section ColoursExactRuns.

Import AQIMap.
Local Open Scope Q_scope.

Lemma clicked_marker_no_worse_than_worst_station_witness :
  exists clicked i j,
    handleMapClick (fun (_ : Q) (_ : nat) => ""%string) fallback
      (lit 2844 2) (lit 7706 2) = Some clicked
    /\ coordinates clicked = (lit 2844 2, lit 7706 2)
    /\ estimateAQI fallback (lit 2844 2) (lit 7706 2) = Some (aqi clicked)
    /\ (i <= j)%nat
    /\ nth_error (map fst AQILegend.rows) i
       = Some (getAQIColor (aqi clicked))
    /\ nth_error (map fst AQILegend.rows) j
       = Some (getAQIColor (num := Q) (lit 175 0)).
Proof.
  apply (clicked_marker_no_worse_than_worst_station
           (fun _ _ => ""%string) fallback (lit 2844 2) (lit 7706 2)
           (lit 175 0)).
  - discriminate.
  - intros loc [<-|[<-|[<-|[<-|[]]]]]; vm_compute; discriminate.
Defined.

End ColoursExactRuns.

(** ** The circle markers and the gauge *)

Section MarkersAndGauge.

Import AQIMap.
Local Open Scope Q_scope.

Lemma max_exact (x y : Q) :
  Math_max x y = if Qle_bool x y then y else x.
Proof. reflexivity. Qed.

(** X9: the three circles drawn for a location are strictly nested, for
    every index: the small one has radius at least 10, the medium one is
    larger than the small one and the large one larger than the medium
    one. *)
Theorem marker_circles_nested (loc : Location Q) :
  exists small medium large,
    radius_small loc = Some small
    /\ radius_medium loc = Some medium
    /\ radius_large loc = Some large
    /\ 10 <= small /\ small < medium /\ medium < large.
Proof.
  unfold radius_small, radius_medium, radius_large.
  cbn [div Exact.number]. unfold Exact.quotient.
  change (lit (num := Q) 5 0) with 5. change (lit (num := Q) 8 0) with 8.
  change (lit (num := Q) 15 0) with 15. change (lit (num := Q) 10 0) with 10.
  change (lit (num := Q) 20 0) with 20. change (lit (num := Q) 30 0) with 30.
  change (Qeq_bool 5 0) with false. change (Qeq_bool 8 0) with false.
  change (Qeq_bool 15 0) with false. cbn [bind].
  do 3 eexists. split; [reflexivity|]. split; [reflexivity|].
  split; [reflexivity|]. rewrite !max_exact.
  set (a := aqi loc).
  assert (E5 : a / 5 == a * (1 # 5)) by (field).
  assert (E8 : a / 8 == a * (1 # 8)) by (field).
  assert (E15 : a / 15 == a * (1 # 15)) by (field).
  destruct (Qle_bool (a / 15) 10) eqn:H15;
    [apply Qle_bool_iff in H15 | apply leb_exact_false in H15];
  destruct (Qle_bool (a / 8) 20) eqn:H8;
    [apply Qle_bool_iff in H8 | apply leb_exact_false in H8
    |apply Qle_bool_iff in H8 | apply leb_exact_false in H8];
  destruct (Qle_bool (a / 5) 30) eqn:H5;
    [apply Qle_bool_iff in H5 | apply leb_exact_false in H5
    |apply Qle_bool_iff in H5 | apply leb_exact_false in H5
    |apply Qle_bool_iff in H5 | apply leb_exact_false in H5
    |apply Qle_bool_iff in H5 | apply leb_exact_false in H5];
  rewrite ?E5, ?E8, ?E15 in *; repeat split; lra.
Qed.

(** X10: for a non-negative value the arc of the gauge stays within the
    circle: the percentage lies between 0 and 100, the arc between 0 and
    the circumference 283, and the circle is full exactly from the value
    500 upward. *)
Theorem gauge_arc_within_circle (value : Q) :
  0 <= value ->
  exists percent dash,
    AQIGauge.gaugePercent value = Some percent
    /\ AQIGauge.strokeDash value = Some dash
    /\ 0 <= percent <= 100
    /\ 0 <= dash <= 283
    /\ (dash == 283 <-> 500 <= value).
Proof.
  intros Hv. unfold AQIGauge.strokeDash, AQIGauge.gaugePercent.
  cbn [div Exact.number]. unfold Exact.quotient.
  change (lit (num := Q) 500 0) with 500.
  change (lit (num := Q) 100 0) with 100.
  change (lit (num := Q) 283 2) with (283 # 100).
  change (Qeq_bool 500 0) with false. cbn [bind].
  do 2 eexists. split; [reflexivity|]. split; [reflexivity|].
  cbn [Math_min Exact.math mul Exact.number].
  assert (E : value / 500 * 100 == value * (1 # 5)) by field.
  destruct (Qle_bool (value / 500 * 100) 100) eqn:H;
    [apply Qle_bool_iff in H | apply leb_exact_false in H];
    rewrite ?E in *; repeat split; try lra; intros; lra.
Qed.

Lemma gauge_arc_within_circle_witness :
  exists percent dash,
    AQIGauge.gaugePercent (num := Q) (lit 250 0) = Some percent
    /\ AQIGauge.strokeDash (num := Q) (lit 250 0) = Some dash
    /\ 0 <= percent <= 100
    /\ 0 <= dash <= 283
    /\ (dash == 283 <-> 500 <= lit 250 0).
Proof.
  apply (gauge_arc_within_circle (lit 250 0)).
  vm_compute. discriminate.
Defined.

(** X11: the stroke class of the gauge, obtained by replacing "bg-" in the
    colour class, is the text class of the same level, and both classes
    are those the forecast page computes for the same index. *)
Theorem gauge_classes_agree {num : Type} {N : JsNumber num} (value : num) :
  AQIGauge.stroke value = AQIGauge.text (AQIGauge.getAQILevel value)
  /\ AQIGauge.color (AQIGauge.getAQILevel value) = Alerts.getAQIColor value
  /\ AQIGauge.text (AQIGauge.getAQILevel value)
     = Alerts.getAQITextColor value.
Proof.
  unfold AQIGauge.stroke, AQIGauge.getAQILevel, Alerts.getAQIColor,
    Alerts.getAQITextColor.
  repeat match goal with
    | |- context [if ?b then _ else _] => destruct b
    end; repeat split.
Qed.

End MarkersAndGauge.

(** ** The forecast, dashboard and alerts pages *)

Section PagesAnyNumber.

Context {num : Type} {N : JsNumber num}.

(** X12: a forecast day always carries four recommendations, and two days
    in the same category carry the same ones (the categories Very
    Unhealthy and Hazardous share theirs). *)
Theorem recommendations_follow_category (aqi other : num) :
  List.length (Alerts.getRecommendationsForAQI aqi) = 4%nat
  /\ (Alerts.getAQILabel aqi = Alerts.getAQILabel other ->
      Alerts.getRecommendationsForAQI aqi
      = Alerts.getRecommendationsForAQI other)
  /\ (Alerts.getRecommendationsForAQI aqi
      = Alerts.getRecommendationsForAQI other ->
      Alerts.getAQILabel aqi = Alerts.getAQILabel other
      \/ (leb aqi (lit 200 0) = false /\ leb other (lit 200 0) = false)).
Proof.
  unfold Alerts.getRecommendationsForAQI, Alerts.getAQILabel.
  destruct (leb aqi (lit 50 0)), (leb aqi (lit 100 0)),
    (leb aqi (lit 150 0)), (leb aqi (lit 200 0)), (leb aqi (lit 300 0)),
    (leb other (lit 50 0)), (leb other (lit 100 0)),
    (leb other (lit 150 0)), (leb other (lit 200 0)),
    (leb other (lit 300 0));
    (split; [reflexivity|]);
    (split; intros H; solve [reflexivity | discriminate H | now left
                            | right; now split]).
Qed.

End PagesAnyNumber.

Section PagesExact.

Local Open Scope Q_scope.

(** X13: the level of a pollutant never goes down when its value goes up:
    for each pollutant, a value below one labelled "low" is "low" and a
    value above one labelled "high" is "high"; an unknown pollutant is
    "moderate" whatever the value. *)
Theorem getLevelLabel_monotone (pollutant : string) (v1 v2 : Q) :
  v1 <= v2 ->
  (Alerts.getLevelLabel v2 pollutant = "low"%string ->
   Alerts.getLevelLabel v1 pollutant = "low"%string)
  /\ (Alerts.getLevelLabel v1 pollutant = "high"%string ->
      Alerts.getLevelLabel v2 pollutant = "high"%string)
  /\ (Alerts.getLevelLabel v1 pollutant = "low"%string
      \/ Alerts.getLevelLabel v1 pollutant = "moderate"%string
      \/ Alerts.getLevelLabel v1 pollutant = "high"%string).
Proof.
  intros Hle.
  assert (Ht : forall t : Q, leb v2 t = true -> leb v1 t = true).
  { intros t H. apply leb_exact_true. apply leb_exact_true in H. lra. }
  unfold Alerts.getLevelLabel.
  repeat match goal with
    | |- context [String.eqb pollutant ?p] => destruct (String.eqb pollutant p)
    end;
  repeat match goal with
    | |- context [leb v2 ?t] =>
        let E := fresh "E" in
        destruct (leb v2 t) eqn:E; [rewrite (Ht _ E)|]
    end;
  repeat match goal with
    | |- context [leb v1 ?t] => destruct (leb v1 t)
    end;
  repeat split; try (intros H; solve [reflexivity | discriminate H]);
  auto.
Qed.

Lemma getLevelLabel_monotone_witness :
  (Alerts.getLevelLabel (num := Q) (lit 40 0) "pm25" = "low"%string ->
   Alerts.getLevelLabel (num := Q) (lit 10 0) "pm25" = "low"%string)
  /\ (Alerts.getLevelLabel (num := Q) (lit 10 0) "pm25" = "high"%string ->
      Alerts.getLevelLabel (num := Q) (lit 40 0) "pm25" = "high"%string)
  /\ (Alerts.getLevelLabel (num := Q) (lit 10 0) "pm25" = "low"%string
      \/ Alerts.getLevelLabel (num := Q) (lit 10 0) "pm25"
         = "moderate"%string
      \/ Alerts.getLevelLabel (num := Q) (lit 10 0) "pm25"
         = "high"%string).
Proof.
  apply (getLevelLabel_monotone "pm25" (lit 10 0) (lit 40 0)).
  vm_compute. discriminate.
Defined.

End PagesExact.

Section AlertsPage.

Import Alerts.
Local Open Scope Z_scope.

Lemma fold_highest (alerts : list Alert) : forall start,
  0 <= start ->
  fold_left
    (fun highest alert =>
       Z.max highest
         (if levels (level alert) =? 0 then 0 else levels (level alert)))
    alerts start
  = Z.max start (highestLevel alerts).
Proof.
  unfold highestLevel.
  induction alerts as [|a alerts IH]; intros start Hs; cbn [fold_left].
  - lia.
  - assert (Hl : 1 <= levels (level a) <= 4) by (destruct (level a); cbn; lia).
    destruct (levels (level a) =? 0) eqn:E; [apply Z.eqb_eq in E; lia|].
    rewrite IH by lia. rewrite (IH (Z.max 0 _)) by lia. lia.
Qed.

Lemma highestLevel_cons (a : Alert) (alerts : list Alert) :
  highestLevel (a :: alerts) = Z.max (levels (level a)) (highestLevel alerts).
Proof.
  assert (Hl : 1 <= levels (level a) <= 4) by (destruct (level a); cbn; lia).
  unfold highestLevel at 1. cbn [fold_left].
  destruct (levels (level a) =? 0) eqn:E; [apply Z.eqb_eq in E; lia|].
  rewrite fold_highest by lia. lia.
Qed.

Lemma highestLevel_nonneg (alerts : list Alert) : 0 <= highestLevel alerts.
Proof.
  induction alerts as [|a alerts IH]; [reflexivity|].
  rewrite highestLevel_cons. lia.
Qed.

Lemma highestLevel_of_worst (alerts : list Alert) (a : Alert) :
  In a alerts ->
  (forall b, In b alerts -> levels (level b) <= levels (level a)) ->
  highestLevel alerts = levels (level a).
Proof.
  induction alerts as [|x alerts IH]; intros Hin Hmax; [contradiction|].
  rewrite highestLevel_cons.
  assert (Hx : levels (level x) <= levels (level a)) by (apply Hmax; now left).
  assert (Hrest : highestLevel alerts <= levels (level a)).
  { clear IH Hin Hx. induction alerts as [|y alerts IH].
    - cbn. destruct (level a); cbn; lia.
    - rewrite highestLevel_cons.
      assert (levels (level y) <= levels (level a))
        by (apply Hmax; right; now left).
      assert (highestLevel alerts <= levels (level a)).
      { apply IH. intros b [<-|Hb]; apply Hmax; [now left|right; now right]. }
      lia. }
  destruct Hin as [<-|Hin]; [lia|].
  rewrite (IH Hin); [lia|]. intros b Hb. apply Hmax. now right.
Qed.

(** X14: the general advice of the alerts page is decided by the worst
    alert alone, wherever it stands in the list: with an alert [a] that no
    alert of the list exceeds in level, the advice is the one for [a]
    alone; and a list whose worst alert is "low" gets the advice of the
    empty list. *)
Theorem generalRecommendations_by_worst_alert
    (alerts : list Alert) (a : Alert) :
  In a alerts ->
  (forall b, In b alerts -> levels (level b) <= levels (level a)) ->
  highestLevel alerts = levels (level a)
  /\ generalRecommendations alerts = generalRecommendations [a]
  /\ (level a = low ->
      generalRecommendations alerts = generalRecommendations []).
Proof.
  intros Hin Hmax.
  pose proof (highestLevel_of_worst alerts a Hin Hmax) as H.
  assert (H1 : highestLevel [a] = levels (level a)).
  { apply highestLevel_of_worst; [now left|]. intros b [<-|[]]. lia. }
  split; [exact H|]. split.
  - unfold generalRecommendations. now rewrite H, H1.
  - intros Hlow. unfold generalRecommendations. rewrite H, Hlow. reflexivity.
Qed.

Lemma generalRecommendations_by_worst_alert_witness :
  highestLevel
    [ mkAlert "1" moderate "t" "m" "ts" None;
      mkAlert "2" severe "t" "m" "ts" (Some "MG Road"%string);
      mkAlert "3" low "t" "m" "ts" None ]
  = levels (level (mkAlert "2" severe "t" "m" "ts" (Some "MG Road"%string)))
  /\ generalRecommendations
       [ mkAlert "1" moderate "t" "m" "ts" None;
         mkAlert "2" severe "t" "m" "ts" (Some "MG Road"%string);
         mkAlert "3" low "t" "m" "ts" None ]
     = generalRecommendations
         [mkAlert "2" severe "t" "m" "ts" (Some "MG Road"%string)]
  /\ (level (mkAlert "2" severe "t" "m" "ts" (Some "MG Road"%string)) = low ->
      generalRecommendations
        [ mkAlert "1" moderate "t" "m" "ts" None;
          mkAlert "2" severe "t" "m" "ts" (Some "MG Road"%string);
          mkAlert "3" low "t" "m" "ts" None ]
      = generalRecommendations []).
Proof.
  apply (generalRecommendations_by_worst_alert
           [ mkAlert "1" moderate "t" "m" "ts" None;
             mkAlert "2" severe "t" "m" "ts" (Some "MG Road"%string);
             mkAlert "3" low "t" "m" "ts" None ]
           (mkAlert "2" severe "t" "m" "ts" (Some "MG Road"%string))).
  - right; left; reflexivity.
  - intros b [<-|[<-|[<-|[]]]]; vm_compute; discriminate.
Defined.

End AlertsPage.

Section Timestamps.

Import Alerts.
Local Open Scope Z_scope.

(** Rounding an exact quotient of integers, by integer division. *)
Lemma Math_round_quotient_div (a : Z) (b : positive) :
  Math_round_quotient a (Z.pos b) = (2 * a + Z.pos b) / (2 * Z.pos b).
Proof.
  unfold Math_round_quotient.
  assert (E : (inject_Z a / inject_Z (Z.pos b) + (1 # 2)
               == (2 * a + Z.pos b) # (2 * b))%Q).
  { unfold Qeq, Qdiv, Qmult, Qinv, Qplus, inject_Z. cbn [Qnum Qden].
    rewrite !Pos2Z.inj_mul. ring. }
  rewrite (Qfloor_comp _ _ E). unfold Qfloor. reflexivity.
Qed.

Lemma round_quotient_lt (a : Z) (b : positive) (n : Z) :
  Math_round_quotient a (Z.pos b) < n <-> 2 * a + Z.pos b < 2 * Z.pos b * n.
Proof.
  rewrite Math_round_quotient_div. split.
  - intros H. apply Z.nle_gt. intros Hc.
    apply (Z.div_le_lower_bound _ (2 * Z.pos b)) in Hc; lia.
  - intros H. apply Z.div_lt_upper_bound; lia.
Qed.

(** X15: which form a timestamp takes, in terms of its age d = now - date
    in milliseconds: minutes below 59.5 minutes (a future timestamp
    included, with a negative number), hours from there to below 23.5
    hours, "Yesterday" from there to below 36 hours, and the date from 36
    hours on; the label never reads "60 minutes ago", "0 hours ago" or
    "24 hours ago". *)
Theorem formatTimestamp_by_age (date now : Z) (localeDate : string) :
  formatTimestamp date now localeDate
  = (if now - date <? 3570000
     then (Number_toString (Math_round_quotient (now - date) 60000)
             ++ " minutes ago")%string
     else if now - date <? 84600000
     then (Number_toString (Math_round_quotient (now - date) 3600000)
             ++ " hours ago")%string
     else if now - date <? 129600000 then "Yesterday"%string
     else localeDate)
  /\ (Math_round_quotient (now - date) 60000 <= 59
      <-> now - date < 3570000)
  /\ (1 <= Math_round_quotient (now - date) 3600000 <= 23
      <-> 1800000 <= now - date < 84600000).
Proof.
  set (d := now - date).
  pose proof (round_quotient_lt d 60000 60) as Hm.
  pose proof (round_quotient_lt d 3600000 24) as Hh.
  pose proof (round_quotient_lt d 3600000 1) as Hh1.
  pose proof (round_quotient_lt d 86400000 1) as Hd1.
  pose proof (round_quotient_lt d 86400000 2) as Hd2.
  split; [|split].
  - unfold formatTimestamp. fold d.
    destruct (Math_round_quotient d 60000 <? 60) eqn:E1;
      [apply Z.ltb_lt in E1 | apply Z.ltb_ge in E1].
    { destruct (d <? 3570000) eqn:F1; [reflexivity|].
      apply Z.ltb_ge in F1. lia. }
    destruct (d <? 3570000) eqn:F1; [apply Z.ltb_lt in F1; lia|].
    destruct (Math_round_quotient d 3600000 <? 24) eqn:E2;
      [apply Z.ltb_lt in E2 | apply Z.ltb_ge in E2].
    { destruct (d <? 84600000) eqn:F2; [reflexivity|].
      apply Z.ltb_ge in F2. lia. }
    destruct (d <? 84600000) eqn:F2; [apply Z.ltb_lt in F2; lia|].
    apply Z.ltb_ge in F2.
    destruct (Math_round_quotient d 86400000 =? 1) eqn:E3;
      [apply Z.eqb_eq in E3 | apply Z.eqb_neq in E3].
    { destruct (d <? 129600000) eqn:F3; [reflexivity|].
      apply Z.ltb_ge in F3. lia. }
    destruct (d <? 129600000) eqn:F3; [|reflexivity].
    apply Z.ltb_lt in F3. lia.
  - lia.
  - lia.
Qed.

End Timestamps.

Section AlertsPageLists.

Import Alerts.
Local Open Scope string_scope.

(** X16: the two filters of the alerts page.  With both selectors on
    "all" every alert is shown; a level selector that is neither "all" nor
    one of the four levels shows nothing; and an alert without a location
    is never hidden by the location selector. *)
Theorem filteredAlerts_edges
    (alerts : list Alert) (alertLevel selectedLocation : string) :
  filteredAlerts alerts "all" "all" = alerts
  /\ (String.eqb alertLevel "all" = false ->
      String.eqb alertLevel "low" = false ->
      String.eqb alertLevel "moderate" = false ->
      String.eqb alertLevel "high" = false ->
      String.eqb alertLevel "severe" = false ->
      filteredAlerts alerts alertLevel selectedLocation = [])
  /\ (forall a,
         In a (filteredAlerts alerts alertLevel "all") ->
         location a = None ->
         In a (filteredAlerts alerts alertLevel selectedLocation)).
Proof.
  split; [|split].
  - unfold filteredAlerts. cbn [String.eqb Ascii.eqb Bool.eqb orb].
    induction alerts as [|a alerts IH]; [reflexivity|].
    cbn [filter]. cbn [filter] in IH. now rewrite IH.
  - intros Hall Hlow Hmod Hhigh Hsev. unfold filteredAlerts.
    assert (E : filter
                  (fun alert =>
                     String.eqb alertLevel "all"
                     || String.eqb (AlertLevel_string (level alert)) alertLevel)
                  alerts = []).
    { induction alerts as [|a alerts IH]; [reflexivity|]. cbn [filter].
      assert (Hno : String.eqb (AlertLevel_string (level a)) alertLevel = false).
      { rewrite String.eqb_sym. destruct (level a); assumption. }
      destruct (String.eqb alertLevel "all"
                || String.eqb (AlertLevel_string (level a)) alertLevel) eqn:T.
      - rewrite Hall, Hno in T. discriminate T.
      - exact IH. }
    now rewrite E.
  - intros a Hin Hloc. unfold filteredAlerts in *.
    apply filter_In in Hin as [Hin _]. apply filter_In. split; [exact Hin|].
    rewrite Hloc. now rewrite orb_true_r.
Qed.

Lemma filteredAlerts_edges_witness :
  filteredAlerts [mkAlert "1" high "t" "m" "ts" None] "all" "all"
  = [mkAlert "1" high "t" "m" "ts" None]
  /\ (String.eqb "critical" "all" = false ->
      String.eqb "critical" "low" = false ->
      String.eqb "critical" "moderate" = false ->
      String.eqb "critical" "high" = false ->
      String.eqb "critical" "severe" = false ->
      filteredAlerts [mkAlert "1" high "t" "m" "ts" None] "critical"
        "MG Road" = [])
  /\ (forall a,
         In a (filteredAlerts [mkAlert "1" high "t" "m" "ts" None]
                 "critical" "all") ->
         location a = None ->
         In a (filteredAlerts [mkAlert "1" high "t" "m" "ts" None]
                 "critical" "MG Road")).
Proof.
  exact (filteredAlerts_edges [mkAlert "1" high "t" "m" "ts" None]
           "critical" "MG Road").
Defined.

End AlertsPageLists.

Section AlertsPageExact.

Import Alerts.
Local Open Scope Q_scope.

(** X17: the location-specific advice.  There is at most one message; it
    is about the first location that carries the selected name, and there
    is one exactly when a location other than "all" is selected, is known,
    and has an index above 100. *)
Theorem locationRecommendations_when
    (Number_string : Q -> string)
    (locations : list (LocationData Q)) (selectedLocation : string) :
  (List.length
     (locationRecommendations Number_string locations selectedLocation)
   <= 1)%nat
  /\ (locationRecommendations Number_string locations selectedLocation <> []
      <-> String.eqb selectedLocation "all" = false
          /\ exists loc,
               find (fun loc => String.eqb (ld_location loc) selectedLocation)
                 locations = Some loc
               /\ 100 < ld_aqi loc).
Proof.
  unfold locationRecommendations.
  destruct (String.eqb selectedLocation "all") eqn:Eall; cbn [negb].
  { split; [cbn; lia|]. split; [intros H; now contradiction H|].
    intros [H _]. discriminate H. }
  destruct (find _ locations) as [loc|] eqn:Hf.
  2:{ split; [cbn; lia|]. split; [intros H; now contradiction H|].
      intros [_ (l & Hl & _)]. discriminate Hl. }
  change (lit (num := Q) 200 0) with 200.
  change (lit (num := Q) 150 0) with 150.
  change (lit (num := Q) 100 0) with 100.
  destruct (ltb 200 (ld_aqi loc)) eqn:H200.
  { apply ltb_exact in H200. split; [cbn; lia|].
    split; [intros _; split; [reflexivity|exists loc; split; [reflexivity|lra]]
           | discriminate]. }
  destruct (ltb 150 (ld_aqi loc)) eqn:H150.
  { apply ltb_exact in H150. split; [cbn; lia|].
    split; [intros _; split; [reflexivity|exists loc; split; [reflexivity|lra]]
           | discriminate]. }
  destruct (ltb 100 (ld_aqi loc)) eqn:H100.
  { apply ltb_exact in H100. split; [cbn; lia|].
    split; [intros _; split; [reflexivity|exists loc; split; [reflexivity|lra]]
           | discriminate]. }
  split; [cbn; lia|]. split; [intros H; now contradiction H|].
  intros [_ (l & [= <-] & Hl)]. apply ltb_exact in Hl. congruence.
Qed.





End AlertsPageExact.

Section ForecastRuns.

Import Alerts.
Local Open Scope Q_scope.


(** The same day in binary64: the winds are 7, 10, 8 and 6, the rounded
    indices 126, 180, 171 and 120. *)
Lemma formatForecastData_binary64 :
  map (fun slot => (wind slot, h_aqi slot))
    (hourly (formatForecastDay (num := float) Scenario.always_half 0
               Scenario.forecast_day))
  = [ (7%float, 126%float); (10%float, 180%float);
      (8%float, 171%float); (6%float, 120%float) ].
Proof. vm_compute. reflexivity. Qed.

(** [Math.floor], [Math.max] and [Math.min] in binary64 on the values that
    set them apart from a plain comparison, and the gauge and the circles
    at the index 175. *)
Lemma binary64_math :
  Math_floor (-0.5)%float = (-1)%float
  /\ Math_floor 0.75%float = 0%float
  /\ Math_floor 2.5%float = 2%float
  /\ Math_max (-0)%float 0%float = 0%float
  /\ Math_min 0%float (-0)%float = (-0)%float
  /\ Math_max 3%float nan = nan
  /\ AQIGauge.gaugePercent (num := float) (lit 175 0) = Some 35%float
  /\ AQIMap.radius_large
       (AQIMap.mkLocation "" (lit 0 0, lit 0 0) (lit 175 0 : float) None)
     = Some 35%float
  /\ AQIMap.radius_medium
       (AQIMap.mkLocation "" (lit 0 0, lit 0 0) (lit 175 0 : float) None)
     = Some 21.875%float.
Proof. vm_compute. repeat split. Qed.

End ForecastRuns.

(** ** The estimator in the arithmetic of the program *)

Section EstimatorBinary64.

Import AQIMap.
Local Open Scope float_scope.

Lemma Prim2SF_eq (x y : float) : Prim2SF x = Prim2SF y -> x = y.
Proof.
  intros H. rewrite <- (SF2Prim_Prim2SF x), <- (SF2Prim_Prim2SF y).
  now rewrite H.
Qed.

(** The binary64 product is commutative. *)
Lemma mul_binary64_comm (x y : float) : x * y = y * x.
Proof.
  apply Prim2SF_eq. rewrite !FloatAxioms.mul_spec. unfold SF64mul, SFmul.
  destruct (Prim2SF x) as [sx|sx| |sx mx ex],
           (Prim2SF y) as [sy|sy| |sy my ey];
    try reflexivity; try (now rewrite xorb_comm).
  now rewrite xorb_comm, Pos.mul_comm, Z.add_comm.
Qed.

Lemma nearby_binary64_iff (lat lng : float) (loc : Location float) :
  nearby lat lng loc = true <-> Spec64.in_tolerance_box lat lng loc.
Proof.
  unfold nearby, Spec64.in_tolerance_box.
  destruct (coordinates loc) as [locLat locLng]. cbn [fst snd].
  change (lit (num := float) 5 3) with Spec64.tolerance.
  apply andb_true_iff.
Qed.

(** One turn of the loop adds the weight to the first accumulator and
    the weighted index to the second. *)
Lemma accumulate_binary64 (lat lng weightSum aqiSum : float)
    (loc : Location float) :
  accumulate lat lng (weightSum, aqiSum) loc
  = Some (weightSum + Spec64.weight lat lng loc,
          aqiSum + Spec64.weight lat lng loc * aqi loc).
Proof.
  unfold accumulate, Spec64.weight, Spec64.distance2.
  destruct (coordinates loc) as [locLat locLng]. cbn [fst snd].
  cbn [Math_pow_2 add sub mul div eqb Binary64.number].
  change (lit (num := float) 0 0) with 0.
  change (lit (num := float) 1 0) with 1.
  destruct (_ =? 0); cbn [bind]; now rewrite (mul_binary64_comm (aqi loc)).
Qed.

(** The loop computes the two sums, each in iteration order. *)
Lemma forEach_binary64 (lat lng : float) (locs : list (Location float)) :
  forall weightSum aqiSum,
    forEach lat lng locs (weightSum, aqiSum)
    = Some (fold_left (fun acc loc => acc + Spec64.weight lat lng loc)
              locs weightSum,
            fold_left
              (fun acc loc => acc + Spec64.weight lat lng loc * aqi loc)
              locs aqiSum).
Proof.
  induction locs as [|l locs IH]; intros weightSum aqiSum.
  - reflexivity.
  - cbn [forEach fold_left]. rewrite accumulate_binary64. cbn [bind].
    apply IH.
Qed.

Lemma estimateAQI_idw_binary64 (locs : list (Location float))
    (lat lng : float) :
  locs <> [] ->
  find (nearby lat lng) locs = None ->
  estimateAQI locs lat lng = Some (Math_round (Spec64.idw locs lat lng)).
Proof.
  intros Hne Hf. rewrite (estimateAQI_none_nearby lat lng locs Hne Hf).
  change (lit (num := float) 0 0) with 0.
  rewrite forEach_binary64. reflexivity.
Qed.

(** C1 fails as stated, the mean being read in real arithmetic: the
    stations P (28.375, 77, index 57) and R (27.625, 77, index 158) are
    both 0.375 degrees from the point (28, 77), outside the tolerance
    box; the mean of the formula is 107.5 and rounds to 108, and the
    program, which rounds each product, sum and quotient to binary64,
    returns 107.  All the inputs are binary64 values. *)
Lemma estimateAQI_exact_and_binary64_differ :
  map (fun loc => (coordinates loc, aqi loc)) Scenario.tie_stations
  = [ ((28.375, 77), 57); ((27.625, 77), 158) ]
  /\ lit (num := float) 28 0 = 28 /\ lit (num := float) 77 0 = 77
  /\ (forall loc,
         In loc Scenario.tie_stations ->
         ~ Spec64.in_tolerance_box 28 77 loc)
  /\ estimateAQI Scenario.tie_stations 28 77 = Some 107
  /\ (Spec.idw Scenario.tie_stations (lit 28 0) (lit 77 0) == 215 # 2)%Q
  /\ Qfloor (Spec.idw Scenario.tie_stations (lit 28 0) (lit 77 0) + (1 # 2))
     = 108%Z
  /\ estimateAQI (num := Q) Scenario.tie_stations (lit 28 0) (lit 77 0)
     = Some (lit 108 0).
Proof.
  split; [vm_compute; reflexivity|]. split; [vm_compute; reflexivity|].
  split; [vm_compute; reflexivity|]. split.
  { intros loc [<-|[<-|[]]] [H _]; vm_compute in H; discriminate H. }
  split; [vm_compute; reflexivity|]. split; [vm_compute; reflexivity|].
  split; vm_compute; reflexivity.
Qed.

(** C1, as the code has it: for a non-empty location set and a query
    point that passes the tolerance test of no location, [estimateAQI]
    returns [Math.round] of Σ(weight × pollutionIndex) / Σ(weight), where
    weight = 1/d² (1 when d² is exactly 0), d² is the squared planar
    distance, and every difference, product, sum and quotient is the
    binary64 one, the two sums being accumulated in iteration order from
    0.  For the stations A (28.40, 77.00, index 100) and B (28.42, 77.02,
    index 200) and the point (28.41, 77.01) the estimate is 150. *)
Theorem estimateAQI_rounded_weighted_mean_binary64
    (locs : list (Location float)) (lat lng : float) :
  locs <> [] ->
  (forall loc, In loc locs -> ~ Spec64.in_tolerance_box lat lng loc) ->
  estimateAQI locs lat lng = Some (Math_round (Spec64.idw locs lat lng))
  /\ estimateAQI (num := float) Scenario.two_stations (lit 2841 2) (lit 7701 2)
     = Some 150.
Proof.
  intros Hne Hfar. split.
  - apply estimateAQI_idw_binary64; [exact Hne|].
    apply find_none_of_all_false. intros l Hl.
    destruct (nearby lat lng l) eqn:E; [|reflexivity].
    apply nearby_binary64_iff in E. now apply Hfar in E.
  - vm_compute. reflexivity.
Qed.

Lemma estimateAQI_rounded_weighted_mean_binary64_witness :
  estimateAQI Scenario.tie_stations 28 77
  = Some (Math_round (Spec64.idw Scenario.tie_stations 28 77))
  /\ estimateAQI (num := float) Scenario.two_stations (lit 2841 2) (lit 7701 2)
     = Some 150.
Proof.
  apply (estimateAQI_rounded_weighted_mean_binary64
           Scenario.tie_stations 28 77).
  - discriminate.
  - intros loc [<-|[<-|[]]] [H _]; vm_compute in H; discriminate H.
Defined.

(** The order of the locations matters to the program even away from
    every tolerance box: the sums are rounded as they are accumulated. *)
Lemma estimateAQI_order_matters_binary64 :
  estimateAQI Scenario.three_stations 28 77 = Some 176
  /\ estimateAQI (rev Scenario.three_stations) 28 77 = Some 175
  /\ (forall loc,
         In loc Scenario.three_stations ->
         ~ Spec64.in_tolerance_box 28 77 loc).
Proof.
  split; [vm_compute; reflexivity|]. split; [vm_compute; reflexivity|].
  intros loc [<-|[<-|[<-|[]]]] [H _]; vm_compute in H; discriminate H.
Qed.



End EstimatorBinary64.
